(** * appcommons: keyset pagination fragments and transactional write helpers

    A shallow embedding of [storage/rdbms.go] (package [storage]) together
    with the part of package [data] that it consumes.

    Layout: the data model first ([Data]), then the embedding of the
    functions of [rdbms.go] ([Storage]), then the properties. *)

From Stdlib Require Import ZArith List String Ascii Bool Lia DecimalString.
Import ListNotations.
Open Scope string_scope.
Open Scope Z_scope.

(* ================================================================== *)
(** ** Package [data] *)

Module Data.

(** Modelled from the spec: [time.Time] as held in [Cursor.Timestamp];
    only its identity as a bind value matters to [rdbms.go], so it is
    taken as an instant counted in nanoseconds. *)
Definition Time := Z.

(** Modelled from the spec: the declaration of [data.Cursor] is missing
    from the sources; [rdbms.go] reads its fields [ID] (spliced into the
    SQL text, hence a string) and [Timestamp]. *)
Record Cursor := mkCursor {
  ID : string;
  Timestamp : Time
}.

(** Modelled from the spec: the declaration of [data.Pagination] is
    missing from the sources; [rdbms.go] tests its two pointer fields
    against [nil], so each is an optional cursor. *)
Record Pagination := mkPagination {
  Previous : option Cursor;
  Next : option Cursor
}.

End Data.

(* ================================================================== *)
(** ** Package [storage]: pagination *)

Module Storage.
Import Data.

(** [orderByClause] is a named string type. *)
Definition orderByClause := string.

(** [PageSizeEnum] is a named [int]. *)
Definition PageSizeEnum := Z.

Definition baseOrderByClause : orderByClause := "ORDER BY createdAt desc, id desc".
Definition pageSizeWithOrder : orderByClause := baseOrderByClause ++ " LIMIT 25".
Definition mediumPageSizeWithOrder : orderByClause := baseOrderByClause ++ " LIMIT 50".
Definition largePageSizeWithOrder : orderByClause := baseOrderByClause ++ " LIMIT 100".
Definition extraLargePageSizeWithOrder : orderByClause := baseOrderByClause ++ " LIMIT 500".
Definition baseOrderByClauseOpposite : orderByClause := "ORDER BY createdAt asc, id asc".
Definition pageSizeWithOrderOpposite : orderByClause := baseOrderByClauseOpposite ++ " LIMIT 25".
Definition mediumPageSizeWithOrderOpposite : orderByClause := baseOrderByClauseOpposite ++ " LIMIT 50".
Definition largePageSizeWithOrderOpposite : orderByClause := baseOrderByClauseOpposite ++ " LIMIT 100".
Definition extraLargePageSizeWithOrderOpposite : orderByClause := baseOrderByClauseOpposite ++ " LIMIT 500".

(** The four tiers are declared with [iota] in the same [const] block as
    the ten clauses above, so [iota] is 10 at [RegularPageSize]. *)
Definition RegularPageSize : PageSizeEnum := 10.
Definition MediumPageSize : PageSizeEnum := 11.
Definition LargePageSize : PageSizeEnum := 12.
Definition ExtraLargePageSize : PageSizeEnum := 13.

(** [ExpectedMaxRowCount]: the map literal, read with Go's zero value for
    a missing key. *)
Definition ExpectedMaxRowCount (k : PageSizeEnum) : Z :=
  if k =? ExtraLargePageSize then 500
  else if k =? LargePageSize then 100
  else if k =? MediumPageSize then 50
  else if k =? RegularPageSize then 25
  else 0.

(** A Go [interface{}] value used as a positional bind argument. *)
Inductive Arg :=
| ArgTime (t : Time)
| ArgString (s : string)
| ArgInt (n : Z).

(** The first [switch pageSize] of the fragment builder. *)
Definition descendingClause (pageSize : PageSizeEnum) : orderByClause :=
  if pageSize =? ExtraLargePageSize then extraLargePageSizeWithOrder
  else if pageSize =? LargePageSize then largePageSizeWithOrder
  else if pageSize =? MediumPageSize then mediumPageSizeWithOrder
  else if pageSize =? RegularPageSize then pageSizeWithOrder
  else pageSizeWithOrder.

(** The second [switch pageSize], in the [Previous] branch. *)
Definition ascendingClause (pageSize : PageSizeEnum) : orderByClause :=
  if pageSize =? ExtraLargePageSize then extraLargePageSizeWithOrderOpposite
  else if pageSize =? LargePageSize then largePageSizeWithOrderOpposite
  else if pageSize =? MediumPageSize then mediumPageSizeWithOrderOpposite
  else if pageSize =? RegularPageSize then pageSizeWithOrderOpposite
  else pageSizeWithOrderOpposite.

(** [GetPaginationQueryFragmentWithConfigurablePageSize]; [page] is the
    value behind the (non-nil) pointer. *)
Definition GetPaginationQueryFragmentWithConfigurablePageSize
    (page : Pagination) (append : bool) (pageSize : PageSizeEnum) : string :=
  let query := " " in
  let orderByQueryClause := descendingClause pageSize in
  match Next page with
  | Some next =>
      let query := if append then query ++ "AND " else query ++ "WHERE " in
      let query := query ++ "id < '" ++ ID next ++ "' " in
      let query := query ++ "AND createdAt <= ? " in
      query ++ orderByQueryClause
  | None =>
      match Previous page with
      | Some previous =>
          let query := if append then query ++ "AND " else query ++ "WHERE " in
          let query := query ++ "id > '" ++ ID previous ++ "' " in
          let query := query ++ "AND createdAt >= ? " in
          let orderByQueryClause := ascendingClause pageSize in
          query ++ orderByQueryClause
      | None => query ++ orderByQueryClause
      end
  end.

(** [GetPaginationQueryFragment]. *)
Definition GetPaginationQueryFragment (page : Pagination) (append : bool) : string :=
  GetPaginationQueryFragmentWithConfigurablePageSize page append RegularPageSize.

(** [GetPaginationTimestampQueryArgs]: two independent [if]s, each
    appending to [times]. *)
Definition GetPaginationTimestampQueryArgs (page : Pagination) : list Arg :=
  let times : list Arg := [] in
  let times := match Next page with
               | Some next => (times ++ [ArgTime (Timestamp next)])%list
               | None => times
               end in
  let times := match Previous page with
               | Some previous => (times ++ [ArgTime (Timestamp previous)])%list
               | None => times
               end in
  times.

(** [AppendWithPaginationArgs]. *)
Definition AppendWithPaginationArgs (page : Pagination) (args : list Arg) : list Arg :=
  (args ++ GetPaginationTimestampQueryArgs page)%list.

(** Number of positional placeholders ([?]) in a piece of SQL text. *)
Fixpoint placeholders (s : string) : nat :=
  match s with
  | EmptyString => 0%nat
  | String c rest =>
      ((if Ascii.eqb c "?"%char then 1 else 0) + placeholders rest)%nat
  end.

(* ================================================================ *)
(** ** Package [storage]: effects *)

(** Go [error] values as this package tells them apart: its own two
    sentinels, [migrate.ErrNoChange], and whatever a driver reports.
    [nil] is [None] in [option Error]. *)
Inductive Error :=
| ErrNoRowsUpdated
| errDBConnectionNeverInitialized
| ErrNoChange
| DriverError (msg : string).

(** Handles of the external libraries; a pointer is an [option]. *)
Definition DB := nat.
Definition Tx := nat.
Definition MigrationDriver := nat.
Definition Migrate := nat.

(** What [sql.Result.RowsAffected()] reports. *)
Record SqlResult := mkSqlResult {
  rowsAffected : Z;
  rowsAffectedErr : option Error
}.

(** A Go [interface{}] value as [recover] and [fmt.Sprint] see it: [nil],
    or a value with its printed form. *)
Definition Iface := option string.

Definition nilDereference : Iface :=
  Some "runtime error: invalid memory address or nil pointer dereference".

(** [config.RelationalDatabaseConfig], by the values of its getters. *)
Record RelationalDatabaseConfig := mkRelationalDatabaseConfig {
  GetDBDialect : string;
  GetDBConnectionURL : string;
  GetDBConnectionMaxIdleTime : Z;
  GetDBConnectionMaxLifetime : Z;
  GetMaxIdleDBConnections : Z;
  GetMaxOpenDBConnections : Z
}.

Definition SQLite3Dialect : string := "sqlite3".
Definition MySQLDialect : string := "mysql".

Record MigrationConfig := mkMigrationConfig {
  MigrationEnabled : bool;
  MigrationSource : string
}.

(** Calls that leave the package, in the order they are made. *)
Inductive Event :=
| EvOpen (dialect url : string)
| EvSetConnMaxLifetime (d : DB) (v : Z)
| EvSetMaxIdleConns (d : DB) (v : Z)
| EvSetMaxOpenConns (d : DB) (v : Z)
| EvSetConnMaxIdleTime (d : DB) (v : Z)
| EvMigrationDriver (dialect : string) (d : DB)
| EvMigrationNew (source dialect : string) (driver : option MigrationDriver)
| EvMigrationUp (m : Migrate)
| EvBegin (d : DB)
| EvCommit (t : Tx)
| EvRollback (t : Tx)
| EvExec (t : Tx) (query : string) (args : list Arg)
| EvLogError (err : option Error) (msg : string)
| EvLogWarn (msg : string).

(** How a call ends: it returns, or it is still panicking. *)
Inductive Outcome (A : Type) :=
| Returns (a : A)
| Panics (v : Iface).
Arguments Returns {A} a.
Arguments Panics {A} v.

(** Computations over a state [S]; a panic keeps the state reached. *)
Definition M (S A : Type) := S -> Outcome A * S.

Definition ret {S A} (a : A) : M S A := fun s => (Returns a, s).
Definition bind {S A B} (m : M S A) (k : A -> M S B) : M S B :=
  fun s => match m s with
           | (Returns a, s') => k a s'
           | (Panics v, s') => (Panics v, s')
           end.
Definition panic {S A} (v : Iface) : M S A := fun s => (Panics v, s).

Notation "x <- m ;; k" := (bind m (fun x => k))
  (at level 61, m at next level, right associativity).
Notation "m ;;; k" := (bind m (fun _ => k))
  (at level 61, right associativity).

(** A function body with a named result of type [R]: the result
    variable is carried next to the state. *)
Definition lift {S R A} (m : M S A) : M (R * S) A :=
  fun rs => match m (snd rs) with
            | (o, s') => (o, (fst rs, s'))
            end.
Definition get_result {S R} : M (R * S) R :=
  fun rs => (Returns (fst rs), rs).
Definition set_result {S R} (r : R) : M (R * S) unit :=
  fun rs => (Returns tt, (r, snd rs)).

(** [defer func() { r := recover(); ... }()] followed by the rest of
    the body.  When the rest ends, by returning or by a panic, the
    deferred function runs with what [recover] gives it: the panic
    value when panicking, [nil] otherwise.  The module is at [go 1.16]
    ([go.mod], and the CI builds with 1.16.2), where [panic(nil)] is an
    ordinary panic whose value, [nil], is what [recover] returns.  The
    call to [recover] ends the panic, so if the deferred function
    returns, so does the body. *)
Definition defer_recover {S} (deferred : Iface -> M S unit) (rest : M S unit) : M S unit :=
  fun s => match rest s with
           | (Returns _, s') => deferred None s'
           | (Panics v, s') => deferred v s'
           end.

(** A function with a named result: the zero value at entry, the
    variable's value at exit. *)
Definition go_func {S R} (zero : R) (body : M (R * S) unit) : M S R :=
  fun s => match body (zero, s) with
           | (Returns _, (r, s')) => (Returns r, s')
           | (Panics v, (_, s')) => (Panics v, s')
           end.


Section Effects.

(** The state of everything outside the process: the database server,
    the migration files. *)
Context {W : Type}.

(** [database/sql] and [golang-migrate], as functions of the outside
    state.  They return what the Go signatures return and do not
    panic on a non-nil receiver. *)
Record Driver := mkDriver {
  sql_Open : string -> string -> W -> (option DB * option Error) * W;
  sql_Begin : DB -> W -> (option Tx * option Error) * W;
  sql_Commit : Tx -> W -> option Error * W;
  sql_Rollback : Tx -> W -> option Error * W;
  sql_Exec : Tx -> string -> list Arg -> W -> (option SqlResult * option Error) * W;
  migrate_mysql_WithInstance : DB -> W -> (option MigrationDriver * option Error) * W;
  migrate_sqlite3_WithInstance : DB -> W -> (option MigrationDriver * option Error) * W;
  migrate_NewWithDatabaseInstance :
    string -> string -> option MigrationDriver -> W -> (option Migrate * option Error) * W;
  migrate_Up : Migrate -> W -> option Error * W
}.

Variable drv : Driver.

(** The process state: the outside, the trace of calls made so far, and
    the two package variables [db] and [dataAccessorInitializer]. *)
Record State := mkState {
  world : W;
  trace : list Event;
  db : option DB;
  dataAccessorInitializer : bool
}.

Definition set_world (w : W) (s : State) : State :=
  mkState w (trace s) (db s) (dataAccessorInitializer s).
Definition emit (e : Event) (s : State) : State :=
  mkState (world s) (trace s ++ [e]) (db s) (dataAccessorInitializer s).
Definition set_db (d : option DB) (s : State) : State :=
  mkState (world s) (trace s) d (dataAccessorInitializer s).
Definition set_done (s : State) : State :=
  mkState (world s) (trace s) (db s) true.

Definition St := State.
Definition TxOp := option Tx -> M St (option Error).

(** [zerolog] calls. *)
Definition log_Error (err : option Error) (msg : string) : M St unit :=
  fun s => (Returns tt, emit (EvLogError err msg) s).
Definition log_Warn (msg : string) : M St unit :=
  fun s => (Returns tt, emit (EvLogWarn msg) s).

(** [fmt.Sprint(s, r)] for a string [s]: no space goes between the
    operands, and [nil] prints as [<nil>]. *)
Definition Sprint (s : string) (r : Iface) : string :=
  match r with
  | Some v => s ++ v
  | None => s ++ "<nil>"
  end.

(** Method calls on [*sql.DB] and [*sql.Tx]. *)
Definition db_Begin (d : option DB) : M St (option Tx * option Error) :=
  match d with
  | None => panic nilDereference
  | Some d => fun s =>
      match sql_Begin drv d (world s) with
      | (r, w) => (Returns r, emit (EvBegin d) (set_world w s))
      end
  end.

Definition tx_Commit (tx : option Tx) : M St (option Error) :=
  match tx with
  | None => panic nilDereference
  | Some t => fun s =>
      match sql_Commit drv t (world s) with
      | (r, w) => (Returns r, emit (EvCommit t) (set_world w s))
      end
  end.

Definition tx_Rollback (tx : option Tx) : M St (option Error) :=
  match tx with
  | None => panic nilDereference
  | Some t => fun s =>
      match sql_Rollback drv t (world s) with
      | (r, w) => (Returns r, emit (EvRollback t) (set_world w s))
      end
  end.

Definition tx_Exec (tx : option Tx) (query : string) (args : list Arg)
  : M St (option SqlResult * option Error) :=
  match tx with
  | None => panic nilDereference
  | Some t => fun s =>
      match sql_Exec drv t query args (world s) with
      | (r, w) => (Returns r, emit (EvExec t query args) (set_world w s))
      end
  end.

Definition result_RowsAffected (result : option SqlResult) : M St (Z * option Error) :=
  match result with
  | None => panic nilDereference
  | Some r => ret (rowsAffected r, rowsAffectedErr r)
  end.

Definition isNil {A} (x : option A) : bool :=
  match x with None => true | Some _ => false end.

(** [Rollback]. *)
Definition Rollback (tx : option Tx) : M St unit :=
  txErr <- tx_Rollback tx ;;
  if negb (isNil txErr) then log_Error txErr "tx rollback error" else ret tt.

(** [ExecuteOpsInTransaction]; [err] is the named result. *)
Definition ExecuteOpsInTransaction (db : option DB) (txOps : TxOp) : M St (option Error) :=
  go_func None (
    r <- lift (db_Begin db) ;;
    let tx := fst r in
    set_result (snd r) ;;;
    defer_recover
      (fun r => if negb (isNil r)
                then lift (log_Error None (Sprint "recovered from in-tx panic" r)) ;;;
                     lift (Rollback tx)
                else ret tt)
      (err <- get_result ;;
       if isNil err then
         err <- lift (txOps tx) ;;
         set_result err ;;;
         if isNil err then
           txErr <- lift (tx_Commit tx) ;;
           if negb (isNil txErr) then
             lift (log_Error txErr "tx commit error") ;;;
             set_result txErr
           else ret tt
         else lift (Rollback tx)
       else ret tt)).

(** [ExecuteQueryInTransaction]; the two closures are any computations,
    a nil [func] value being one that panics. *)
Definition ExecuteQueryInTransaction (tx : option Tx) (prequeryOps : M St unit)
    (query : string) (arguments : M St (list Arg)) (expectedRowEffected : Z)
  : M St (option Error) :=
  prequeryOps ;;;
  args <- arguments ;;
  r <- tx_Exec tx query args ;;
  let result := fst r in
  let err := snd r in
  if isNil err then
    ra <- result_RowsAffected result ;;
    let rowsAffected := fst ra in
    let err := snd ra in
    if (expectedRowEffected >? 0) && negb (rowsAffected =? expectedRowEffected) && isNil err
    then ret (Some ErrNoRowsUpdated)
    else ret err
  else ret err.

(** [GetTxWrapperForSingleWriteQuery]. *)
Definition GetTxWrapperForSingleWriteQuery (prequeryOps : M St unit)
    (query : string) (arguments : M St (list Arg)) : TxOp :=
  fun tx => ExecuteQueryInTransaction tx prequeryOps query arguments 1.

(** The [for _, op := range ops] loop of
    [ExecuteMultipleWriteOpsInTransaction]; [err] is the closure's named
    result. *)
Fixpoint runOps (tx : option Tx) (ops : list (option TxOp)) (err : option Error)
  : M St (option Error) :=
  match ops with
  | [] => ret err
  | None :: rest =>
      log_Warn "Tx Op is nil! Ignoring it" ;;;
      runOps tx rest err
  | Some op :: rest =>
      err <- op tx ;;
      if negb (isNil err) then ret err else runOps tx rest err
  end.

(** [ExecuteMultipleWriteOpsInTransaction]. *)
Definition ExecuteMultipleWriteOpsInTransaction (db : option DB) (ops : list (option TxOp))
  : M St (option Error) :=
  ExecuteOpsInTransaction db (fun tx => runOps tx ops None).

(** [ExecuteSingleRowWriteInTransaction]. *)
Definition ExecuteSingleRowWriteInTransaction (db : option DB) (prequeryOps : M St unit)
    (query : string) (arguments : M St (list Arg)) : M St (option Error) :=
  ExecuteMultipleWriteOpsInTransaction db
    [Some (GetTxWrapperForSingleWriteQuery prequeryOps query arguments)].

(** [getDB]. *)
Definition getDB (dialect connectionURL : string) : M St (option DB * option Error) :=
  fun s => match sql_Open drv dialect connectionURL (world s) with
           | (r, w) => (Returns r, emit (EvOpen dialect connectionURL) (set_world w s))
           end.

(** A setter of [*sql.DB]. *)
Definition db_Set (ev : DB -> Z -> Event) (d : option DB) (v : Z) : M St unit :=
  match d with
  | None => panic nilDereference
  | Some d => fun s => (Returns tt, emit (ev d v) s)
  end.

(** [CreateDBConnectionPool]; its [db] is a local variable. *)
Definition CreateDBConnectionPool (dbConfig : RelationalDatabaseConfig)
  : M St (option DB * option Error) :=
  r <- getDB (GetDBDialect dbConfig) (GetDBConnectionURL dbConfig) ;;
  let db := fst r in
  let err := snd r in
  (if isNil err then
     db_Set EvSetConnMaxLifetime db (GetDBConnectionMaxLifetime dbConfig) ;;;
     db_Set EvSetMaxIdleConns db (GetMaxIdleDBConnections dbConfig) ;;;
     db_Set EvSetMaxOpenConns db (GetMaxOpenDBConnections dbConfig) ;;;
     db_Set EvSetConnMaxIdleTime db (GetDBConnectionMaxIdleTime dbConfig)
   else ret tt) ;;;
  ret (db, err).

(** [getMigrationDriver]; [WithInstance] of either package is handed the
    pointer as it is. *)
Definition getMigrationDriver (db : option DB) (dbConfig : RelationalDatabaseConfig)
  : M St (option MigrationDriver * option Error) :=
  match db with
  | None => panic nilDereference
  | Some d => fun s =>
      let call := if String.eqb (GetDBDialect dbConfig) MySQLDialect
                  then migrate_mysql_WithInstance drv
                  else migrate_sqlite3_WithInstance drv in
      match call d (world s) with
      | (r, w) =>
          (Returns r, emit (EvMigrationDriver (GetDBDialect dbConfig) d) (set_world w s))
      end
  end.

(** [getMigration]. *)
Definition getMigration (source dialect : string) (driver : option MigrationDriver)
  : M St (option Migrate * option Error) :=
  fun s => match migrate_NewWithDatabaseInstance drv source dialect driver (world s) with
           | (r, w) => (Returns r, emit (EvMigrationNew source dialect driver) (set_world w s))
           end.

Definition migration_Up (migration : option Migrate) : M St (option Error) :=
  match migration with
  | None => panic nilDereference
  | Some m => fun s =>
      match migrate_Up drv m (world s) with
      | (r, w) => (Returns r, emit (EvMigrationUp m) (set_world w s))
      end
  end.

Definition error_eqb (a b : Error) : bool :=
  match a, b with
  | ErrNoRowsUpdated, ErrNoRowsUpdated => true
  | errDBConnectionNeverInitialized, errDBConnectionNeverInitialized => true
  | ErrNoChange, ErrNoChange => true
  | DriverError x, DriverError y => String.eqb x y
  | _, _ => false
  end.

(** [err == e] for a sentinel [e]. *)
Definition err_is (err : option Error) (e : Error) : bool :=
  match err with
  | Some x => error_eqb x e
  | None => false
  end.

(** [runMigration]; [migrationConf] is a pointer. *)
Definition runMigration (db : option DB) (dbConfig : RelationalDatabaseConfig)
    (migrationConf : option MigrationConfig) : M St (option Error) :=
  match migrationConf with
  | None => panic nilDereference
  | Some conf =>
      if MigrationEnabled conf then
        r <- getMigrationDriver db dbConfig ;;
        let driver := fst r in
        let err := snd r in
        if negb (isNil err) then ret err
        else
          r <- getMigration (MigrationSource conf) (GetDBDialect dbConfig) driver ;;
          let migration := fst r in
          let err := snd r in
          if negb (isNil err) then ret err
          else
            err <- migration_Up migration ;;
            if negb (isNil err) && negb (err_is err ErrNoChange) then ret err
            else ret None
      else ret None
  end.

(** [sync.Once.Do] on [dataAccessorInitializer]: the flag is set when
    [f] ends, by returning or by a panic. *)
Definition Once_Do {A} (f : M (A * St) unit) : M (A * St) unit :=
  fun rs =>
    if dataAccessorInitializer (snd rs) then (Returns tt, rs)
    else match f rs with
         | (o, (r, s')) => (o, (r, set_done s'))
         end.

(** Reads and writes of the package variable [db]. *)
Definition load_db : M St (option DB) :=
  fun s => (Returns (db s), s).
Definition store_db (d : option DB) : M St unit :=
  fun s => (Returns tt, set_db d s).

(** [GetConfiguredConnectionPool]; [err] is the local variable the
    closure assigns, [db] the package variable. *)
Definition GetConfiguredConnectionPool (dbConfig : RelationalDatabaseConfig)
    (migrationConf : option MigrationConfig) : M St (option DB * option Error) :=
  fun s0 =>
    let body : M (option Error * St) unit :=
      Once_Do (
        r <- lift (CreateDBConnectionPool dbConfig) ;;
        lift (store_db (fst r)) ;;;
        set_result (snd r) ;;;
        err <- get_result ;;
        if isNil err then
          d <- lift load_db ;;
          err <- lift (runMigration d dbConfig migrationConf) ;;
          set_result err
        else ret tt) in
    match body (None, s0) with
    | (Panics v, (_, s1)) => (Panics v, s1)
    | (Returns _, (err, s1)) =>
        let err := if isNil (db s1) && isNil err
                   then Some errDBConnectionNeverInitialized else err in
        (Returns (db s1, err), s1)
    end.

(** A run of calls to [GetConfiguredConnectionPool], one after the
    other; a call that panics is followed by the next one all the same
    (its caller recovered).  The results are listed in call order. *)
Fixpoint callPool (calls : list (RelationalDatabaseConfig * option MigrationConfig))
    (s : St) : list (Outcome (option DB * option Error)) * St :=
  match calls with
  | [] => ([], s)
  | (c, m) :: rest =>
      match GetConfiguredConnectionPool c m s with
      | (o, s1) =>
          match callPool rest s1 with
          | (os, s2) => (o :: os, s2)
          end
      end
  end.

(** How many times the body handed to [Do] has started: it opens with
    the one call to [sql.Open] the package makes. *)
Fixpoint initRuns (t : list Event) : nat :=
  match t with
  | [] => 0%nat
  | EvOpen _ _ :: rest => S (initRuns rest)
  | _ :: rest => initRuns rest
  end.

(** The process as it starts. *)
Definition initial (w : W) : St := mkState w [] None false.

End Effects.

Arguments Driver W : clear implicits.
Arguments State W : clear implicits.
Arguments St W : clear implicits.
Arguments TxOp W : clear implicits.

(** *** A driver to run the code against

    Every call succeeds unless told otherwise; the outside state counts
    the statements executed. *)
Record Script := mkScript {
  openFails : option Error;
  beginFails : option Error;
  commitFails : option Error;
  rollbackFails : option Error;
  rowsPerExec : Z
}.

Definition theDB : DB := 1%nat.
Definition theTx : Tx := 7%nat.

Definition scripted (sc : Script) : Driver nat :=
  {| sql_Open := fun _ _ w =>
       match openFails sc with
       | Some e => ((None, Some e), w)
       | None => ((Some theDB, None), w)
       end;
     sql_Begin := fun _ w =>
       match beginFails sc with
       | Some e => ((None, Some e), w)
       | None => ((Some theTx, None), w)
       end;
     sql_Commit := fun _ w => (commitFails sc, w);
     sql_Rollback := fun _ w => (rollbackFails sc, w);
     sql_Exec := fun _ _ _ w => ((Some (mkSqlResult (rowsPerExec sc) None), None), S w);
     migrate_mysql_WithInstance := fun _ w => ((Some 2%nat, None), w);
     migrate_sqlite3_WithInstance := fun _ w => ((Some 3%nat, None), w);
     migrate_NewWithDatabaseInstance := fun _ _ _ w => ((Some 4%nat, None), w);
     migrate_Up := fun _ w => (Some ErrNoChange, w) |}.

Definition allGood : Script := mkScript None None None None 1.
Definition beginBroken : Script := mkScript None (Some (DriverError "begin")) None None 1.
Definition commitBroken : Script := mkScript None None (Some (DriverError "commit")) None 1.
Definition openBroken : Script := mkScript (Some (DriverError "open")) None None None 1.
Definition noRowTouched : Script := mkScript None None None None 0.

(** Closures to hand to the helpers. *)
Definition opOk : TxOp nat := fun _ => ret None.
Definition opFails : TxOp nat := fun _ => ret (Some (DriverError "op")).
Definition opPanics (v : Iface) : TxOp nat := fun _ => panic v.
Definition EmptyOps : M (St nat) unit := ret tt.
Definition NilArgs : M (St nat) (list Arg) := ret [].

Definition sqliteConfig : RelationalDatabaseConfig :=
  mkRelationalDatabaseConfig SQLite3Dialect "database.sqlite3?_foreign_keys=on" 0 0 30 100.
Definition migrationOn : option MigrationConfig :=
  Some (mkMigrationConfig true "file://test-migration").

(** How many migrations were applied. *)
Fixpoint migrationRuns (t : list Event) : nat :=
  match t with
  | [] => 0%nat
  | EvMigrationUp _ :: rest => S (migrationRuns rest)
  | _ :: rest => migrationRuns rest
  end.

Section Observations.

Context {W : Type}.
Variable drv : Driver W.

(** The state once [db.Begin()] has been called. *)
Definition began (d : DB) (w : W) (s : St W) : St W :=
  emit (EvBegin d) (set_world w s).

(** The state once [tx.Commit()] has been called, the failure of the
    commit being logged. *)
Definition committed (t : Tx) (s : St W) : St W :=
  match sql_Commit drv t (world s) with
  | (Some c, w) =>
      emit (EvLogError (Some c) "tx commit error") (emit (EvCommit t) (set_world w s))
  | (None, w) => emit (EvCommit t) (set_world w s)
  end.

(** The state once [tx.Rollback()] has been called, the failure of the
    rollback being logged. *)
Definition rolledBack (t : Tx) (s : St W) : St W :=
  match sql_Rollback drv t (world s) with
  | (Some e, w) =>
      emit (EvLogError (Some e) "tx rollback error") (emit (EvRollback t) (set_world w s))
  | (None, w) => emit (EvRollback t) (set_world w s)
  end.

(** Every entry of [ops] is nil, and then a warning is logged, or is
    called on [tx] and returns a nil error; [s'] is the state they leave
    from [s]. *)
Inductive OpsSucceed (tx : option Tx) : list (option (TxOp W)) -> St W -> St W -> Prop :=
| OpsSucceed_nil s : OpsSucceed tx [] s s
| OpsSucceed_skip rest s s' :
    OpsSucceed tx rest (emit (EvLogWarn "Tx Op is nil! Ignoring it") s) s' ->
    OpsSucceed tx (None :: rest) s s'
| OpsSucceed_run op rest s s1 s' :
    op tx s = (Returns None, s1) ->
    OpsSucceed tx rest s1 s' ->
    OpsSucceed tx (Some op :: rest) s s'.

(** [m] leaves the initialiser's flag alone and adds to the trace at most
    [no] calls to [sql.Open] and [nu] runs of the migrations, the process
    state being seen through [view]. *)
Definition Adds {S A} (view : S -> St W) (no nu : nat) (m : M S A) : Prop :=
  forall s o s', m s = (o, s') ->
    dataAccessorInitializer (view s') = dataAccessorInitializer (view s)
    /\ exists evs,
         trace (view s') = (trace (view s) ++ evs)%list
         /\ (initRuns evs <= no)%nat /\ (migrationRuns evs <= nu)%nat.

End Observations.

(** Whether a trace holds a call ending a transaction. *)
Definition endsTransaction (e : Event) : bool :=
  match e with
  | EvCommit _ | EvRollback _ => true
  | _ => false
  end.

(** [s] ends with [suffix]. *)
Definition ends_with (s suffix : string) : Prop :=
  exists pre, s = pre ++ suffix.

(** The ordering a fragment is to carry for a page: ascending when
    [Previous] is the only cursor, descending otherwise. *)
Definition expectedOrdering (page : Pagination) : string :=
  match Next page, Previous page with
  | None, Some _ => "ORDER BY createdAt asc, id asc"
  | _, _ => "ORDER BY createdAt desc, id desc"
  end.

(* ================================================================== *)
(** ** Package [storage]: reading rows *)

(** A scan destination: the address handed to [Scan]. *)
Definition Dest := nat.

(** A row of a result set, by its column values. *)
Definition RowData := list Arg.

(** [*sql.Rows].  A result set is finite: [Next] answers true once for
    each pending row, then false.  [iterErr] is what [rows.Err()] holds
    once the iteration has stopped. *)
Record Rows := mkRows {
  pending : list RowData;
  iterErr : option Error
}.

(** [*sql.Row], which [QueryRow] never returns nil. *)
Definition Row := nat.

(** The calls of the two readers, in the order they are made: those of
    the closures they are handed and those that leave the package. *)
Inductive QEvent :=
| QvCallQueryArgs
| QvCallScanArgs
| QvQueryRow (d : DB) (query : string) (args : list Arg)
| QvRowScan (r : Row) (dest : list Dest)
| QvQuery (d : DB) (query : string) (args : list Arg)
| QvNext
| QvScan (row : RowData) (dest : list Dest)
| QvClose.

Definition isScanArgsCall (e : QEvent) : bool :=
  match e with QvCallScanArgs => true | _ => false end.
Definition isScan (e : QEvent) : bool :=
  match e with QvScan _ _ => true | _ => false end.
Definition isClose (e : QEvent) : bool :=
  match e with QvClose => true | _ => false end.

(** [defer f()] with no [recover] in [f], followed by the rest of the
    body: [f] runs when the rest ends, its result dropped; a panic of the
    rest goes on after it, unless [f] itself panics. *)
Definition defer_call {S A} (deferred : M S unit) (rest : M S A) : M S A :=
  fun s => match rest s with
           | (o, s1) =>
               match deferred s1 with
               | (Returns _, s2) => (o, s2)
               | (Panics v, s2) => (Panics v, s2)
               end
           end.

Section Queries.

(** The state outside the package: the database and the caller's memory,
    which the closures and [Scan] write to. *)
Context {W : Type}.

(** The reading side of [database/sql]. *)
Record QueryDriver := mkQueryDriver {
  sql_QueryRow : DB -> string -> list Arg -> W -> Row * W;
  row_Scan : Row -> list Dest -> W -> option Error * W;
  sql_Query : DB -> string -> list Arg -> W -> (option Rows * option Error) * W;
  rows_Scan : RowData -> list Dest -> W -> option Error * W;
  rows_Close : W -> option Error * W
}.

Variable qdrv : QueryDriver.

Record QState := mkQState {
  qworld : W;
  qtrace : list QEvent
}.

(** A [func() []interface{}] of the caller: it may write to the caller's
    memory and may panic. *)
Definition Closure (A : Type) := W -> Outcome A * W.

(** A call of a closure. *)
Definition call {A} (ev : QEvent) (f : Closure A) : M QState A :=
  fun s => match f (qworld s) with
           | (o, w) => (o, mkQState w (qtrace s ++ [ev]))
           end.

(** A call into the driver. *)
Definition extern {A} (ev : QEvent) (f : W -> A * W) : M QState A :=
  fun s => match f (qworld s) with
           | (a, w) => (Returns a, mkQState w (qtrace s ++ [ev]))
           end.

Definition db_QueryRow (d : option DB) (query : string) (args : list Arg) : M QState Row :=
  match d with
  | None => panic nilDereference
  | Some d => extern (QvQueryRow d query args) (sql_QueryRow qdrv d query args)
  end.

Definition db_Query (d : option DB) (query : string) (args : list Arg)
  : M QState (option Rows * option Error) :=
  match d with
  | None => panic nilDereference
  | Some d => extern (QvQuery d query args) (sql_Query qdrv d query args)
  end.

(** [QuerySingleRow]. *)
Definition QuerySingleRow (db : option DB) (query : string)
    (queryArgs : Closure (list Arg)) (scanArgs : Closure (list Dest))
  : M QState (option Error) :=
  args <- call QvCallQueryArgs queryArgs ;;
  row <- db_QueryRow db query args ;;
  dest <- call QvCallScanArgs scanArgs ;;
  extern (QvRowScan row dest) (row_Scan qdrv row dest).

(** The [for rows.Next()] loop of [QueryRows] over the pending rows. *)
Fixpoint scanRows (rows : list RowData) (scanArgs : Closure (list Dest))
    (err : option Error) : M QState (option Error) :=
  match rows with
  | [] =>
      extern QvNext (fun w => (false, w)) ;;;
      ret err
  | row :: rest =>
      extern QvNext (fun w => (true, w)) ;;;
      dest <- call QvCallScanArgs scanArgs ;;
      err <- extern (QvScan row dest) (rows_Scan qdrv row dest) ;;
      if negb (isNil err) then ret err else scanRows rest scanArgs err
  end.

(** [QueryRows]. *)
Definition QueryRows (db : option DB) (query : string)
    (queryArgs : Closure (list Arg)) (scanArgs : Closure (list Dest))
  : M QState (option Error) :=
  args <- call QvCallQueryArgs queryArgs ;;
  r <- db_Query db query args ;;
  let rows := fst r in
  let err := snd r in
  if negb (isNil err) then ret err
  else
    defer_call
      (match rows with
       | None => panic nilDereference
       | Some _ => extern QvClose (rows_Close qdrv) ;;; ret tt
       end)
      (match rows with
       | None => panic nilDereference
       | Some rs => scanRows (pending rs) scanArgs err
       end).

(** [Args2SliceFnWrapper]. *)
Definition Args2SliceFnWrapper {A} (args : list A) : Closure (list A) :=
  fun w => (Returns args, w).

(** The state once a closure has been called from [s] and has left the
    outside as [w]. *)
Definition called (ev : QEvent) (w : W) (s : QState) : QState :=
  mkQState w (qtrace s ++ [ev]).

(** The state once the result set has been closed. *)
Definition closed (s : QState) : QState :=
  mkQState (snd (rows_Close qdrv (qworld s))) (qtrace s ++ [QvClose]).

(** Each of [rows] was visited from [s] to [s']: [Next] answered true,
    [scanArgs] returned destinations and the scan into them succeeded. *)
Inductive RowsScanned (scanArgs : Closure (list Dest))
  : list RowData -> QState -> QState -> Prop :=
| RowsScanned_nil s : RowsScanned scanArgs [] s s
| RowsScanned_row row rest s dest w1 w2 s' :
    scanArgs (qworld s) = (Returns dest, w1) ->
    rows_Scan qdrv row dest w1 = (None, w2) ->
    RowsScanned scanArgs rest
      (mkQState w2 (qtrace s ++ [QvNext; QvCallScanArgs; QvScan row dest])) s' ->
    RowsScanned scanArgs (row :: rest) s s'.

End Queries.

Arguments QueryDriver W : clear implicits.
Arguments QState W : clear implicits.
Arguments Closure W A : clear implicits.

(** *** A reader to run the code against

    The outside state counts the calls of [scanArgs]; a scan fails on the
    rows [badRow] picks. *)
Definition scriptedReader (rows : list RowData) (queryFails : option Error)
    (badRow : RowData -> bool) : QueryDriver nat :=
  {| sql_QueryRow := fun _ _ _ w => (5%nat, w);
     row_Scan := fun _ _ w =>
       match rows with
       | [] => (Some (DriverError "sql: no rows in result set"), w)
       | _ :: _ => (None, w)
       end;
     sql_Query := fun _ _ _ w =>
       match queryFails with
       | Some e => ((None, Some e), w)
       | None => ((Some (mkRows rows (Some (DriverError "connection lost"))), None), w)
       end;
     rows_Scan := fun row _ w =>
       (if badRow row then Some (DriverError "scan") else None, w);
     rows_Close := fun w => (None, w) |}.

Definition countingScanArgs : Closure nat (list Dest) :=
  fun w => (Returns [w], S w).
Definition panickingScanArgs : Closure nat (list Dest) :=
  fun w => (Panics (Some "scanArgs"), w).
Definition NoArgs : Closure nat (list Arg) :=
  fun w => (Returns [], w).
Definition threeRows : list RowData :=
  [[ArgString "a"]; [ArgString "b"]; [ArgString "c"]].
Definition isRowB (row : RowData) : bool :=
  match row with
  | [ArgString s] => String.eqb s "b"
  | _ => false
  end.

(* ================================================================== *)
(** ** Package [controller]: reading a page request *)

Definition PreviousPaginationQueryParamKey : string := "previous".
Definition NextPaginationQueryParamKey : string := "next".

(** [url.Values], as [req.URL.Query()] gives it: the values of each key,
    in order. *)
Definition Values := string -> list string.

(** [Values.Get]: the first value of the key, or the empty string. *)
Definition Values_Get (v : Values) (key : string) : string :=
  match v key with
  | [] => ""
  | x :: _ => x
  end.

Section Request.

(** Modelled from the spec: [data.ParseCursor] is missing from the
    sources; it is taken as a parameter returning the pair its callers
    destructure, a cursor pointer and an error. *)
Variable ParseCursor : string -> option Cursor * option Error.

(** [GetPagination]; its argument is the query of [req.URL]. *)
Definition GetPagination (query : Values) : Pagination :=
  let result := mkPagination None None in
  let previous := Values_Get query PreviousPaginationQueryParamKey in
  let result :=
    if (0 <? String.length previous)%nat then
      let r := ParseCursor previous in
      if isNil (snd r) then mkPagination (fst r) (Next result) else result
    else result in
  let next := Values_Get query NextPaginationQueryParamKey in
  let result :=
    if (0 <? String.length next)%nat then
      let r := ParseCursor next in
      if isNil (snd r) then mkPagination (Previous result) (fst r) else result
    else result in
  result.

End Request.

(* ================================================================== *)
(** ** Further observations *)

(** The decimal form of an integer. *)
Definition decimal (n : Z) : string :=
  NilZero.string_of_int (Z.to_int n).

(** The cursor a fragment is built from: [Next], else [Previous]. *)
Definition activeCursor (page : Pagination) : option Cursor :=
  match Next page with
  | Some next => Some next
  | None => Previous page
  end.

(** How many of the two cursors are set. *)
Definition cursorsSet (page : Pagination) : nat :=
  ((if isNil (Next page) then 0 else 1) + (if isNil (Previous page) then 0 else 1))%nat.

(** How many calls in a trace ended a transaction. *)
Definition transactionEnds (t : list Event) : nat :=
  List.length (List.filter endsTransaction t).

Definition isExec (e : Event) : bool :=
  match e with EvExec _ _ _ => true | _ => false end.

Definition isWarning (e : Event) : bool :=
  match e with EvLogWarn _ => true | _ => false end.

(** The state after [n] warnings about a nil operation. *)
Definition warnedTimes {W} (n : nat) (s : St W) : St W :=
  Nat.iter n (emit (EvLogWarn "Tx Op is nil! Ignoring it")) s.

(** The log entry of the recovery guard. *)
Definition recoveredLog (v : string) : Event :=
  EvLogError None ("recovered from in-tx panic" ++ v).

(** The scripted driver with every call succeeding, but for the three
    steps of the migration, which report what they are told to. *)
Definition scriptedMigration (driverFails instanceFails up : option Error) : Driver nat :=
  {| sql_Open := sql_Open (scripted allGood);
     sql_Begin := sql_Begin (scripted allGood);
     sql_Commit := sql_Commit (scripted allGood);
     sql_Rollback := sql_Rollback (scripted allGood);
     sql_Exec := sql_Exec (scripted allGood);
     migrate_mysql_WithInstance := fun _ w =>
       match driverFails with
       | Some e => ((None, Some e), w)
       | None => ((Some 2%nat, None), w)
       end;
     migrate_sqlite3_WithInstance := fun _ w =>
       match driverFails with
       | Some e => ((None, Some e), w)
       | None => ((Some 3%nat, None), w)
       end;
     migrate_NewWithDatabaseInstance := fun _ _ _ w =>
       match instanceFails with
       | Some e => ((None, Some e), w)
       | None => ((Some 4%nat, None), w)
       end;
     migrate_Up := fun _ w => (up, w) |}.

(** The scripted driver with every call succeeding, [Exec] returning
    [r]. *)
Definition scriptedExec (r : option SqlResult * option Error) : Driver nat :=
  {| sql_Open := sql_Open (scripted allGood);
     sql_Begin := sql_Begin (scripted allGood);
     sql_Commit := sql_Commit (scripted allGood);
     sql_Rollback := sql_Rollback (scripted allGood);
     sql_Exec := fun _ _ _ w => (r, S w);
     migrate_mysql_WithInstance := migrate_mysql_WithInstance (scripted allGood);
     migrate_sqlite3_WithInstance := migrate_sqlite3_WithInstance (scripted allGood);
     migrate_NewWithDatabaseInstance := migrate_NewWithDatabaseInstance (scripted allGood);
     migrate_Up := migrate_Up (scripted allGood) |}.

Definition migrationConf : MigrationConfig := mkMigrationConfig true "file://test-migration".
Definition closurePanics {A} (v : Iface) : M (St nat) A := panic v.

(** A parser to run [GetPagination] against: it knows two tokens. *)
Definition twoTokens (token : string) : option Cursor * option Error :=
  if String.eqb token "t01" then (Some (mkCursor "c01" 100), None)
  else if String.eqb token "t09" then (Some (mkCursor "c09" 900), None)
  else (None, Some (DriverError "cursor format"))%Z.

Definition queryOf (previous next : list string) : Values :=
  fun k => if String.eqb k "previous" then previous
           else if String.eqb k "next" then next
           else [].

(** How many events of a reader's trace satisfy [p]. *)
Definition countQ (p : QEvent -> bool) (t : list QEvent) : nat :=
  List.length (List.filter p t).

(** The state once the query has been issued from [s]. *)
Definition queried {W} (d : DB) (query : string) (args : list Arg) (w : W)
    (s : QState W) : QState W :=
  mkQState w (qtrace s ++ [QvCallQueryArgs; QvQuery d query args]).

(** A query without the values of [key]. *)
Definition without (key : string) (query : Values) : Values :=
  fun k => if String.eqb k key then [] else query k.

(** The cursor a token gives: that of the parser when the token is not
    empty and parses, none otherwise. *)
Definition cursorOf (ParseCursor : string -> option Cursor * option Error)
    (token : string) : option Cursor :=
  if (0 <? String.length token)%nat
  then if isNil (snd (ParseCursor token)) then fst (ParseCursor token) else None
  else None.

(** A token that gives no cursor: empty, or refused by the parser. *)
Definition unusable (ParseCursor : string -> option Cursor * option Error)
    (token : string) : Prop :=
  token = "" \/ snd (ParseCursor token) <> None.

(* ================================================================== *)
(** ** Properties of the pagination functions *)

Lemma append_assoc (a b c : string) : (a ++ b) ++ c = a ++ (b ++ c).
Proof.
  induction a as [|ch a IH]; simpl; [reflexivity | now rewrite IH].
Qed.

Lemma placeholders_app (a b : string) :
  placeholders (a ++ b) = (placeholders a + placeholders b)%nat.
Proof.
  induction a as [|ch a IH]; simpl; [reflexivity | rewrite IH; lia].
Qed.

(** C1. A page with both cursors yields the very fragment of the page
    that keeps its [Next] cursor and has no [Previous]: [Next] wins, for
    either value of [append] and every page size. *)
Theorem fragment_next_wins (page : Pagination) (next : Cursor)
    (append : bool) (pageSize : PageSizeEnum) :
  Next page = Some next ->
  Previous page <> None ->
  GetPaginationQueryFragmentWithConfigurablePageSize page append pageSize
  = GetPaginationQueryFragmentWithConfigurablePageSize
      (mkPagination None (Some next)) append pageSize.
Proof.
  intros Hn _.
  unfold GetPaginationQueryFragmentWithConfigurablePageSize.
  rewrite Hn. reflexivity.
Qed.

Lemma fragment_next_wins_witness :
  let page := mkPagination (Some (mkCursor "c01" 5)) (Some (mkCursor "c09" 9)) in
  GetPaginationQueryFragmentWithConfigurablePageSize page true LargePageSize
  = GetPaginationQueryFragmentWithConfigurablePageSize
      (mkPagination None (Some (mkCursor "c09" 9))) true LargePageSize.
Proof.
  apply (fragment_next_wins
           (mkPagination (Some (mkCursor "c01" 5)) (Some (mkCursor "c09" 9)))
           (mkCursor "c09" 9) true LargePageSize).
  - reflexivity.
  - simpl. discriminate.
Defined.

(** With at most one cursor set the bind values are the one timestamp of
    the active cursor, or none: as many as the fragment has placeholders,
    the identifier spliced into it having none of its own. *)
Lemma args_of_single_cursor (page : Pagination) :
  Next page = None \/ Previous page = None ->
  GetPaginationTimestampQueryArgs page =
    match Next page, Previous page with
    | Some next, _ => [ArgTime (Timestamp next)]
    | None, Some previous => [ArgTime (Timestamp previous)]
    | None, None => []
    end.
Proof.
  unfold GetPaginationTimestampQueryArgs.
  intros [H | H]; rewrite H; destruct (Next page), (Previous page);
    try discriminate; reflexivity.
Qed.

(** With both cursors set, the two appends both run. *)
Lemma args_of_both_cursors (page : Pagination) (next previous : Cursor) :
  Next page = Some next ->
  Previous page = Some previous ->
  GetPaginationTimestampQueryArgs page =
    [ArgTime (Timestamp next); ArgTime (Timestamp previous)].
Proof.
  unfold GetPaginationTimestampQueryArgs.
  intros -> ->. reflexivity.
Qed.

(** C2. On a page with both cursors set the argument builder returns two
    bind values, the [Next] timestamp and then the [Previous] one, while
    the fragment built for the same page holds one placeholder. *)
Theorem args_both_cursors_exceed_placeholders :
  let page := mkPagination (Some (mkCursor "c01" 100)) (Some (mkCursor "c09" 900)) in
  GetPaginationTimestampQueryArgs page = [ArgTime 900; ArgTime 100]
  /\ GetPaginationQueryFragmentWithConfigurablePageSize page false RegularPageSize
     = " WHERE id < 'c09' AND createdAt <= ? ORDER BY createdAt desc, id desc LIMIT 25"
  /\ placeholders
       (GetPaginationQueryFragmentWithConfigurablePageSize page false RegularPageSize) = 1%nat
  /\ List.length (GetPaginationTimestampQueryArgs page) = 2%nat.
Proof.
  repeat split; reflexivity.
Qed.

(** C3. For each of the four tiers the fragment ends with the ordering
    followed by [LIMIT 25], [50], [100], [500] in turn; the ordering is
    descending by (createdAt, id) when [Next] is set or no cursor is, and
    ascending when [Previous] alone is set. *)
Theorem fragment_tier_and_direction (page : Pagination) (append : bool)
    (tier : PageSizeEnum) (limit : string) :
  In (tier, limit)
     [(RegularPageSize, "25"); (MediumPageSize, "50");
      (LargePageSize, "100"); (ExtraLargePageSize, "500")] ->
  ends_with (GetPaginationQueryFragmentWithConfigurablePageSize page append tier)
            (expectedOrdering page ++ " LIMIT " ++ limit).
Proof.
  intros Hin.
  unfold ends_with, GetPaginationQueryFragmentWithConfigurablePageSize.
  exists (match Next page, Previous page with
          | Some n, _ =>
              (if append then " AND " else " WHERE ")
                ++ "id < '" ++ ID n ++ "' AND createdAt <= ? "
          | None, Some pv =>
              (if append then " AND " else " WHERE ")
                ++ "id > '" ++ ID pv ++ "' AND createdAt >= ? "
          | None, None => " "
          end).
  unfold expectedOrdering.
  simpl in Hin.
  destruct Hin as [E | [E | [E | [E | []]]]]; inversion E; subst; clear E;
    destruct (Next page) as [n|], (Previous page) as [pv|], append;
    cbv [descendingClause ascendingClause Z.eqb Pos.eqb
         RegularPageSize MediumPageSize LargePageSize ExtraLargePageSize];
    rewrite ?append_assoc; simpl; rewrite ?append_assoc; reflexivity.
Qed.

Lemma fragment_tier_and_direction_witness :
  ends_with
    (GetPaginationQueryFragmentWithConfigurablePageSize
       (mkPagination (Some (mkCursor "c01" 5)) None) false MediumPageSize)
    (expectedOrdering (mkPagination (Some (mkCursor "c01" 5)) None) ++ " LIMIT " ++ "50").
Proof.
  apply (fragment_tier_and_direction
           (mkPagination (Some (mkCursor "c01" 5)) None) false MediumPageSize "50").
  simpl. right. left. reflexivity.
Defined.

(* ================================================================== *)
(** ** Properties of the transaction helpers *)

Section TransactionProperties.

Context {W : Type}.
Variable drv : Driver W.

Lemma Rollback_state (t : Tx) (s : St W) :
  Rollback drv (Some t) s = (Returns tt, rolledBack drv t s).
Proof.
  unfold Rollback, rolledBack, bind, tx_Rollback, log_Error, ret.
  destruct (sql_Rollback drv t (world s)) as [[e|] w]; reflexivity.
Qed.

(** What [ExecuteOpsInTransaction] does once the transaction is begun, by
    the way [txOps] ends. *)
Lemma ExecuteOpsInTransaction_begun (d : DB) (txOps : TxOp W) (s : St W) (t : Tx) (w1 : W) :
  sql_Begin drv d (world s) = ((Some t, None), w1) ->
  ExecuteOpsInTransaction drv (Some d) txOps s =
    match txOps (Some t) (began d w1 s) with
    | (Returns None, s2) => (Returns (fst (sql_Commit drv t (world s2))), committed drv t s2)
    | (Returns (Some e), s2) => (Returns (Some e), rolledBack drv t s2)
    | (Panics (Some v), s2) =>
        (Returns None,
         rolledBack drv t (emit (EvLogError None ("recovered from in-tx panic" ++ v)) s2))
    | (Panics None, s2) => (Returns None, s2)
    end.
Proof.
  intros Hb.
  unfold ExecuteOpsInTransaction, go_func, bind, lift, db_Begin, set_result,
    get_result, defer_recover, began.
  simpl. rewrite Hb. simpl.
  destruct (txOps (Some t) _) as [[[e|]|[v|]] s2]; simpl.
  - rewrite Rollback_state. reflexivity.
  - unfold tx_Commit, committed.
    destruct (sql_Commit drv t (world s2)) as [[c|] w3]; reflexivity.
  - rewrite Rollback_state. reflexivity.
  - reflexivity.
Qed.

(** C4. If [Begin] fails its error is returned and nothing but the call
    to [Begin] has happened, whatever [txOps] is; if [txOps] returns an
    error the transaction is rolled back and that error returned; if it
    returns nil the transaction is committed and the result is that of
    the commit. *)
Theorem transaction_begin_ops_commit (d : DB) (txOps : TxOp W) (s : St W) :
  (forall tx e w1,
      sql_Begin drv d (world s) = ((tx, Some e), w1) ->
      ExecuteOpsInTransaction drv (Some d) txOps s = (Returns (Some e), began d w1 s))
  /\ (forall t w1 e s2,
      sql_Begin drv d (world s) = ((Some t, None), w1) ->
      txOps (Some t) (began d w1 s) = (Returns (Some e), s2) ->
      ExecuteOpsInTransaction drv (Some d) txOps s
      = (Returns (Some e), rolledBack drv t s2))
  /\ (forall t w1 s2,
      sql_Begin drv d (world s) = ((Some t, None), w1) ->
      txOps (Some t) (began d w1 s) = (Returns None, s2) ->
      ExecuteOpsInTransaction drv (Some d) txOps s
      = (Returns (fst (sql_Commit drv t (world s2))), committed drv t s2)).
Proof.
  repeat split.
  - intros tx e w1 Hb.
    unfold ExecuteOpsInTransaction, go_func, bind, lift, db_Begin, set_result,
      get_result, defer_recover, began.
    simpl. rewrite Hb. reflexivity.
  - intros t w1 e s2 Hb Hops.
    rewrite (ExecuteOpsInTransaction_begun d txOps s t w1 Hb), Hops. reflexivity.
  - intros t w1 s2 Hb Hops.
    rewrite (ExecuteOpsInTransaction_begun d txOps s t w1 Hb), Hops. reflexivity.
Qed.

(** A panic with a non-nil value is recovered, logged and followed by a
    rollback, and the call returns. *)
Lemma panic_with_value_rolls_back (d : DB) (txOps : TxOp W) (s : St W)
    (t : Tx) (w1 : W) (v : string) (s2 : St W) :
  sql_Begin drv d (world s) = ((Some t, None), w1) ->
  txOps (Some t) (began d w1 s) = (Panics (Some v), s2) ->
  ExecuteOpsInTransaction drv (Some d) txOps s
  = (Returns None,
     rolledBack drv t (emit (EvLogError None ("recovered from in-tx panic" ++ v)) s2)).
Proof.
  intros Hb Hops.
  rewrite (ExecuteOpsInTransaction_begun d txOps s t w1 Hb), Hops. reflexivity.
Qed.

(** C10. When [txOps] panics after a successful [Begin] the call returns
    a nil error, the value it also returns when [txOps] succeeded and the
    commit went through. *)
Theorem panic_returns_nil_as_commit_does (d : DB) (panicking succeeding : TxOp W)
    (s : St W) (t : Tx) (w1 : W) (v : Iface) (s2 s2' : St W) :
  sql_Begin drv d (world s) = ((Some t, None), w1) ->
  panicking (Some t) (began d w1 s) = (Panics v, s2) ->
  succeeding (Some t) (began d w1 s) = (Returns None, s2') ->
  fst (sql_Commit drv t (world s2')) = None ->
  fst (ExecuteOpsInTransaction drv (Some d) panicking s) = Returns None
  /\ fst (ExecuteOpsInTransaction drv (Some d) succeeding s)
     = fst (ExecuteOpsInTransaction drv (Some d) panicking s).
Proof.
  intros Hb Hp Hs Hc.
  rewrite !(ExecuteOpsInTransaction_begun d _ s t w1 Hb), Hp, Hs.
  destruct v as [v|]; simpl; rewrite Hc; split; reflexivity.
Qed.

(** The statement wrapper when the driver reports no error: what it
    returns is decided by the affected-row count alone. *)
Lemma single_write_wrapper (prequeryOps : M (St W) unit) (query : string)
    (arguments : M (St W) (list Arg)) (t : Tx) (s sa sb : St W)
    (args : list Arg) (res : SqlResult) (w2 : W) :
  prequeryOps s = (Returns tt, sa) ->
  arguments sa = (Returns args, sb) ->
  sql_Exec drv t query args (world sb) = ((Some res, None), w2) ->
  rowsAffectedErr res = None ->
  GetTxWrapperForSingleWriteQuery drv prequeryOps query arguments (Some t) s
  = (Returns (if rowsAffected res =? 1 then None else Some ErrNoRowsUpdated),
     emit (EvExec t query args) (set_world w2 sb)).
Proof.
  intros Hp Ha He Hr.
  unfold GetTxWrapperForSingleWriteQuery, ExecuteQueryInTransaction, bind, tx_Exec.
  rewrite Hp, Ha, He. simpl. unfold ret. rewrite Hr.
  destruct (rowsAffected res =? 1); reflexivity.
Qed.

(** C6. A single-row write whose statement ran without a driver error:
    when it affected no row or more than one, the wrapper, and the whole
    call with it, returns [ErrNoRowsUpdated] and the transaction is rolled
    back; when it affected exactly one row the wrapper returns no error,
    and the call goes on to commit. *)
Theorem single_row_write_guard (d : DB) (prequeryOps : M (St W) unit) (query : string)
    (arguments : M (St W) (list Arg)) (s0 sa sb : St W) (t : Tx) (w1 w2 : W)
    (args : list Arg) (res : SqlResult) :
  sql_Begin drv d (world s0) = ((Some t, None), w1) ->
  prequeryOps (began d w1 s0) = (Returns tt, sa) ->
  arguments sa = (Returns args, sb) ->
  sql_Exec drv t query args (world sb) = ((Some res, None), w2) ->
  rowsAffectedErr res = None ->
  let executed := emit (EvExec t query args) (set_world w2 sb) in
  (rowsAffected res = 0 \/ rowsAffected res > 1 ->
     GetTxWrapperForSingleWriteQuery drv prequeryOps query arguments (Some t) (began d w1 s0)
     = (Returns (Some ErrNoRowsUpdated), executed)
     /\ ExecuteSingleRowWriteInTransaction drv (Some d) prequeryOps query arguments s0
        = (Returns (Some ErrNoRowsUpdated), rolledBack drv t executed))
  /\ (rowsAffected res = 1 ->
     GetTxWrapperForSingleWriteQuery drv prequeryOps query arguments (Some t) (began d w1 s0)
     = (Returns None, executed)
     /\ ExecuteSingleRowWriteInTransaction drv (Some d) prequeryOps query arguments s0
        = (Returns (fst (sql_Commit drv t (world executed))), committed drv t executed)).
Proof.
  intros Hb Hp Ha He Hr executed.
  pose proof (single_write_wrapper prequeryOps query arguments t _ sa sb args res w2
                Hp Ha He Hr) as Hw.
  fold executed in Hw.
  unfold ExecuteSingleRowWriteInTransaction, ExecuteMultipleWriteOpsInTransaction.
  rewrite (ExecuteOpsInTransaction_begun d _ s0 t w1 Hb).
  simpl runOps. unfold bind. rewrite Hw.
  split; intros Hrows.
  - assert (E : (rowsAffected res =? 1) = false) by (apply Z.eqb_neq; lia).
    rewrite E. simpl. split; reflexivity.
  - rewrite Hrows. simpl. split; reflexivity.
Qed.

Lemma runOps_after_successes (tx : option Tx) (pre rest : list (option (TxOp W)))
    (s s2 : St W) :
  OpsSucceed tx pre s s2 ->
  runOps tx (pre ++ rest) None s = runOps tx rest None s2.
Proof.
  induction 1 as [s | pre s s' _ IH | op pre s s1 s' Hop _ IH]; simpl.
  - reflexivity.
  - unfold bind, log_Warn. exact IH.
  - unfold bind. rewrite Hop. simpl. exact IH.
Qed.

Lemma rolledBack_trace (t : Tx) (s : St W) :
  exists logs,
    trace (rolledBack drv t s) = (trace s ++ EvRollback t :: logs)%list
    /\ existsb endsTransaction logs = false.
Proof.
  unfold rolledBack.
  destruct (sql_Rollback drv t (world s)) as [[e|] w]; simpl.
  - exists [EvLogError (Some e) "tx rollback error"]. split; [|reflexivity].
    now rewrite <- app_assoc.
  - exists []. split; reflexivity.
Qed.

(** C7. In one transaction over a list of operations a nil entry costs a
    warning and nothing else: a list whose other entries all succeed is
    committed.  The first entry to return an error ends the run: the
    entries after it are not called, the transaction is rolled back and
    not committed, and that error is returned. *)
Theorem multiple_writes_all_or_nothing (d : DB) (s : St W) (t : Tx) (w1 : W) :
  sql_Begin drv d (world s) = ((Some t, None), w1) ->
  (forall ops s2,
      OpsSucceed (Some t) ops (began d w1 s) s2 ->
      ExecuteMultipleWriteOpsInTransaction drv (Some d) ops s
      = (Returns (fst (sql_Commit drv t (world s2))), committed drv t s2))
  /\ (forall pre op post s2 e s3,
      OpsSucceed (Some t) pre (began d w1 s) s2 ->
      op (Some t) s2 = (Returns (Some e), s3) ->
      ExecuteMultipleWriteOpsInTransaction drv (Some d) (pre ++ Some op :: post) s
      = (Returns (Some e), rolledBack drv t s3)
      /\ exists logs,
           trace (rolledBack drv t s3) = (trace s3 ++ EvRollback t :: logs)%list
           /\ existsb endsTransaction logs = false).
Proof.
  intros Hb. split.
  - intros ops s2 Hok.
    unfold ExecuteMultipleWriteOpsInTransaction.
    rewrite (ExecuteOpsInTransaction_begun d _ s t w1 Hb).
    pose proof (runOps_after_successes (Some t) ops [] _ s2 Hok) as Hrun.
    rewrite app_nil_r in Hrun. rewrite Hrun. reflexivity.
  - intros pre op post s2 e s3 Hok Hop. split.
    + unfold ExecuteMultipleWriteOpsInTransaction.
      rewrite (ExecuteOpsInTransaction_begun d _ s t w1 Hb).
      rewrite (runOps_after_successes (Some t) pre (Some op :: post) _ s2 Hok).
      simpl. unfold bind. rewrite Hop. reflexivity.
    + apply rolledBack_trace.
Qed.

End TransactionProperties.

(* ================================================================== *)
(** ** Properties of the pool initialiser *)

Lemma initRuns_app (a b : list Event) :
  initRuns (a ++ b) = (initRuns a + initRuns b)%nat.
Proof.
  induction a as [|e a IH]; simpl; [reflexivity|].
  destruct e; simpl; rewrite IH; reflexivity.
Qed.

Lemma migrationRuns_app (a b : list Event) :
  migrationRuns (a ++ b) = (migrationRuns a + migrationRuns b)%nat.
Proof.
  induction a as [|e a IH]; simpl; [reflexivity|].
  destruct e; simpl; rewrite IH; reflexivity.
Qed.

Section PoolProperties.

Context {W : Type}.
Variable drv : Driver W.

Lemma Adds_ret {S A} (view : S -> St W) (a : A) : Adds view 0 0 (ret a).
Proof.
  intros s o s' H. inversion H; subst. split; [reflexivity|].
  exists []. rewrite app_nil_r. simpl. repeat split; lia.
Qed.

Lemma Adds_panic {S A} (view : S -> St W) (v : Iface) : Adds view 0 0 (@panic S A v).
Proof.
  intros s o s' H. inversion H; subst. split; [reflexivity|].
  exists []. rewrite app_nil_r. simpl. repeat split; lia.
Qed.

Lemma Adds_silent {S A} (view : S -> St W) (m : M S A) :
  (forall s o s', m s = (o, s') ->
     dataAccessorInitializer (view s') = dataAccessorInitializer (view s)
     /\ trace (view s') = trace (view s)) ->
  Adds view 0 0 m.
Proof.
  intros H s o s' E. destruct (H s o s' E) as [Hf Ht].
  split; [exact Hf|]. exists []. rewrite app_nil_r. simpl.
  repeat split; [exact Ht | lia | lia].
Qed.

Lemma Adds_weaken {S A} (view : S -> St W) (no nu no' nu' : nat) (m : M S A) :
  (no <= no')%nat -> (nu <= nu')%nat -> Adds view no nu m -> Adds view no' nu' m.
Proof.
  intros Ho Hu H s o s' E. destruct (H s o s' E) as [Hf [evs [Ht [H1 H2]]]].
  split; [exact Hf|]. exists evs. repeat split; [exact Ht | lia | lia].
Qed.

Lemma Adds_bind {S A B} (view : S -> St W) (no nu no' nu' : nat)
    (m : M S A) (k : A -> M S B) :
  Adds view no nu m ->
  (forall a, Adds view no' nu' (k a)) ->
  Adds view (no + no') (nu + nu') (bind m k).
Proof.
  intros Hm Hk s o s' E. unfold bind in E.
  destruct (m s) as [[a|v] s1] eqn:Em.
  - destruct (Hm s _ _ Em) as [Hf [evs [Ht [H1 H2]]]].
    destruct (Hk a s1 _ _ E) as [Hf' [evs' [Ht' [H1' H2']]]].
    split; [congruence|].
    exists (evs ++ evs')%list.
    rewrite Ht', Ht, app_assoc, initRuns_app, migrationRuns_app.
    repeat split; lia.
  - inversion E; subst.
    destruct (Hm s _ _ Em) as [Hf [evs [Ht [H1 H2]]]].
    split; [exact Hf|]. exists evs. repeat split; [exact Ht | lia | lia].
Qed.

Lemma Adds_lift {R A} (no nu : nat) (m : M (St W) A) :
  Adds (fun s : St W => s) no nu m -> Adds (@snd R (St W)) no nu (lift m).
Proof.
  intros Hm [r s] o [r' s'] E. unfold lift in E. simpl in E.
  destruct (m s) as [o1 s1] eqn:Em. inversion E; subst.
  exact (Hm s _ _ Em).
Qed.

Lemma Adds_emit {A} (e : Event) (a : A) :
  Adds (fun s : St W => s) (initRuns [e]) (migrationRuns [e])
       (fun s : St W => (Returns a, emit e s)).
Proof.
  intros s o s' H. inversion H; subst. split; [reflexivity|].
  exists [e]. repeat split; lia.
Qed.

Lemma Adds_call {A} (e : Event) (f : W -> A * W) :
  Adds (fun s : St W => s) (initRuns [e]) (migrationRuns [e])
       (fun s : St W => match f (world s) with
                        | (r, w) => (Returns r, emit e (set_world w s))
                        end).
Proof.
  intros s o s' H. destruct (f (world s)) as [r w]. inversion H; subst.
  split; [reflexivity|]. exists [e]. repeat split; lia.
Qed.

Lemma Adds_db_Set (ev : DB -> Z -> Event) (d : option DB) (v : Z) :
  (forall x y, initRuns [ev x y] = 0%nat /\ migrationRuns [ev x y] = 0%nat) ->
  Adds (fun s : St W => s) 0 0 (db_Set ev d v).
Proof.
  intros Hev. destruct d as [d|]; simpl.
  - destruct (Hev d v) as [H1 H2].
    rewrite <- H1 at 1. rewrite <- H2. apply Adds_emit.
  - apply Adds_panic.
Qed.

Lemma Adds_CreateDBConnectionPool (c : RelationalDatabaseConfig) :
  Adds (fun s : St W => s) 1 0 (CreateDBConnectionPool drv c).
Proof.
  unfold CreateDBConnectionPool.
  apply (Adds_bind _ 1 0 0 0).
  - exact (Adds_call (EvOpen _ _) _).
  - intros r. apply (Adds_bind _ 0 0 0 0); [|intros; apply Adds_ret].
    destruct (isNil (snd r)); [|apply Adds_ret].
    repeat (apply (Adds_bind _ 0 0 0 0); [|intros _]);
      apply Adds_db_Set; intros; split; reflexivity.
Qed.

Lemma Adds_runMigration (d : option DB) (c : RelationalDatabaseConfig)
    (m : option MigrationConfig) :
  Adds (fun s : St W => s) 0 1 (runMigration drv d c m).
Proof.
  unfold runMigration.
  destruct m as [conf|]; [|apply (Adds_weaken _ 0 0); [lia | lia | apply Adds_panic]].
  destruct (MigrationEnabled conf);
    [|apply (Adds_weaken _ 0 0); [lia | lia | apply Adds_ret]].
  apply (Adds_bind _ 0 0 0 1).
  - unfold getMigrationDriver. destruct d as [d|]; [|apply Adds_panic].
    exact (Adds_call (EvMigrationDriver _ _) _).
  - intros r.
    destruct (negb (isNil (snd r)));
      [apply (Adds_weaken _ 0 0); [lia | lia | apply Adds_ret]|].
    apply (Adds_bind _ 0 0 0 1).
    + exact (Adds_call (EvMigrationNew _ _ _) _).
    + intros r'.
      destruct (negb (isNil (snd r')));
        [apply (Adds_weaken _ 0 0); [lia | lia | apply Adds_ret]|].
      apply (Adds_bind _ 0 1 0 0).
      * unfold migration_Up. destruct (fst r') as [mg|].
        -- exact (Adds_call (EvMigrationUp _) _).
        -- apply (Adds_weaken _ 0 0); [lia | lia | apply Adds_panic].
      * intros err. destruct (negb (isNil err) && negb (err_is err ErrNoChange));
          apply Adds_ret.
Qed.

(** Once the initialiser is spent a call changes nothing and reports the
    pool as it stands. *)
Lemma pool_call_when_done (c : RelationalDatabaseConfig) (m : option MigrationConfig)
    (s : St W) :
  dataAccessorInitializer s = true ->
  GetConfiguredConnectionPool drv c m s
  = (Returns (db s, if isNil (db s) then Some errDBConnectionNeverInitialized else None), s).
Proof.
  intros Hd.
  unfold GetConfiguredConnectionPool, Once_Do. simpl. rewrite Hd.
  destruct (db s); reflexivity.
Qed.

(** The first call spends the initialiser, opens the pool at most once and
    applies the migrations at most once. *)
Lemma pool_call_first (c : RelationalDatabaseConfig) (m : option MigrationConfig)
    (s : St W) (o : Outcome (option DB * option Error)) (s' : St W) :
  dataAccessorInitializer s = false ->
  GetConfiguredConnectionPool drv c m s = (o, s') ->
  dataAccessorInitializer s' = true
  /\ exists evs,
       trace s' = (trace s ++ evs)%list
       /\ (initRuns evs <= 1)%nat /\ (migrationRuns evs <= 1)%nat.
Proof.
  intros Hd H.
  unfold GetConfiguredConnectionPool, Once_Do in H. simpl in H. rewrite Hd in H.
  match type of H with
  | context [match ?body (None, s) with _ => _ end] =>
      assert (Hb : Adds (@snd (option Error) (St W)) 1 1 body);
      [| destruct (body (None, s)) as [ob [eb sb]] eqn:Eb;
         destruct (Hb _ _ _ Eb) as [_ [evs [Ht [H1 H2]]]]; simpl in Ht ]
  end.
  - apply (Adds_bind _ 1 0 0 1);
      [apply Adds_lift, Adds_CreateDBConnectionPool | intros r].
    apply (Adds_bind _ 0 0 0 1).
    { apply Adds_lift, Adds_silent. intros s1 o1 s1' E. inversion E; subst.
      split; reflexivity. }
    intros _. apply (Adds_bind _ 0 0 0 1).
    { apply Adds_silent. intros s1 o1 s1' E. inversion E; subst.
      split; reflexivity. }
    intros _. apply (Adds_bind _ 0 0 0 1).
    { apply Adds_silent. intros s1 o1 s1' E. inversion E; subst.
      split; reflexivity. }
    intros err. destruct (isNil err);
      [|apply (Adds_weaken _ 0 0); [lia | lia | apply Adds_ret]].
    apply (Adds_bind _ 0 0 0 1).
    { apply Adds_lift, Adds_silent. intros s1 o1 s1' E. inversion E; subst.
      split; reflexivity. }
    intros d0. apply (Adds_bind _ 0 1 0 0).
    { apply Adds_lift, Adds_runMigration. }
    intros e0. apply Adds_silent. intros s1 o1 s1' E. inversion E; subst.
    split; reflexivity.
  - destruct ob as [u|v]; inversion H; subst; simpl.
    + split; [reflexivity|]. exists evs. repeat split; assumption.
    + split; [reflexivity|]. exists evs. repeat split; assumption.
Qed.

Lemma callPool_when_done (calls : list (RelationalDatabaseConfig * option MigrationConfig))
    (s : St W) :
  dataAccessorInitializer s = true ->
  callPool drv calls s
  = (map (fun _ => Returns
                     (db s, if isNil (db s)
                            then Some errDBConnectionNeverInitialized else None))
         calls, s).
Proof.
  intros Hd. induction calls as [|[c m] rest IH]; simpl; [reflexivity|].
  rewrite (pool_call_when_done c m s Hd), IH. reflexivity.
Qed.

(** C8. Over any run of calls from process start the pool is opened at
    most once and the migrations are applied at most once; and when the
    first call leaves the pool variable nil, every later call returns a
    nil pool with [errDBConnectionNeverInitialized]. *)
Theorem pool_initialised_at_most_once
    (calls : list (RelationalDatabaseConfig * option MigrationConfig)) (w : W) :
  ((initRuns (trace (snd (callPool drv calls (initial w)))) <= 1)%nat
   /\ (migrationRuns (trace (snd (callPool drv calls (initial w)))) <= 1)%nat)
  /\ (forall c m rest o s1,
        calls = (c, m) :: rest ->
        GetConfiguredConnectionPool drv c m (initial w) = (o, s1) ->
        db s1 = None ->
        Forall (fun r => r = Returns (None, Some errDBConnectionNeverInitialized))
               (fst (callPool drv rest s1))).
Proof.
  split.
  - destruct calls as [|[c m] rest]; simpl; [split; lia|].
    destruct (GetConfiguredConnectionPool drv c m (initial w)) as [o s1] eqn:E1.
    destruct (pool_call_first c m (initial w) o s1 eq_refl E1) as [Hd [evs [Ht [H1 H2]]]].
    rewrite (callPool_when_done rest s1 Hd). simpl. rewrite Ht. simpl.
    split; assumption.
  - intros c m rest o s1 _ E1 Hnil.
    destruct (pool_call_first c m (initial w) o s1 eq_refl E1) as [Hd _].
    rewrite (callPool_when_done rest s1 Hd), Hnil. simpl.
    apply Forall_forall. intros r Hin. apply in_map_iff in Hin.
    destruct Hin as [_ [Hr _]]. symmetry. exact Hr.
Qed.

End PoolProperties.

(* ================================================================== *)
(** ** The properties at work on the scripted driver *)

Lemma transaction_begin_ops_commit_witness :
  ExecuteOpsInTransaction (scripted beginBroken) (Some theDB) (opPanics None) (initial 0%nat)
  = (Returns (Some (DriverError "begin")), began theDB 0%nat (initial 0%nat))
  /\ ExecuteOpsInTransaction (scripted allGood) (Some theDB) opFails (initial 0%nat)
     = (Returns (Some (DriverError "op")),
        rolledBack (scripted allGood) theTx (began theDB 0%nat (initial 0%nat)))
  /\ ExecuteOpsInTransaction (scripted commitBroken) (Some theDB) opOk (initial 0%nat)
     = (Returns (Some (DriverError "commit")),
        committed (scripted commitBroken) theTx (began theDB 0%nat (initial 0%nat))).
Proof.
  split; [|split].
  - apply (proj1 (transaction_begin_ops_commit
                    (scripted beginBroken) theDB (opPanics None) (initial 0%nat))
             None (DriverError "begin") 0%nat).
    reflexivity.
  - apply (proj1 (proj2 (transaction_begin_ops_commit
                           (scripted allGood) theDB opFails (initial 0%nat)))
             theTx 0%nat (DriverError "op")); reflexivity.
  - apply (proj2 (proj2 (transaction_begin_ops_commit
                           (scripted commitBroken) theDB opOk (initial 0%nat)))
             theTx 0%nat); reflexivity.
Defined.

(** C5. A [txOps] that calls [panic(nil)] in a transaction that was begun:
    the call returns a nil error, and the trace ends with [Begin]: nothing
    is logged, and the transaction is neither rolled back nor committed. *)
Theorem nil_panic_leaves_transaction_open :
  sql_Begin (scripted allGood) theDB 0%nat = ((Some theTx, None), 0%nat)
  /\ opPanics None (Some theTx) (began theDB 0%nat (initial 0%nat))
     = (Panics None, began theDB 0%nat (initial 0%nat))
  /\ ExecuteOpsInTransaction (scripted allGood) (Some theDB) (opPanics None) (initial 0%nat)
     = (Returns None, mkState 0%nat [EvBegin theDB] None false)
  /\ existsb endsTransaction [EvBegin theDB] = false.
Proof.
  repeat split; reflexivity.
Qed.

Lemma panic_with_value_rolls_back_witness :
  ExecuteOpsInTransaction (scripted allGood) (Some theDB) (opPanics (Some "boom"))
    (initial 0%nat)
  = (Returns None,
     mkState 0%nat
       [EvBegin theDB; EvLogError None "recovered from in-tx panicboom";
        EvRollback theTx] None false).
Proof.
  exact (panic_with_value_rolls_back (scripted allGood) theDB (opPanics (Some "boom"))
           (initial 0%nat) theTx 0%nat "boom" (began theDB 0%nat (initial 0%nat))
           eq_refl eq_refl).
Defined.

Lemma panic_returns_nil_as_commit_does_witness :
  fst (ExecuteOpsInTransaction (scripted allGood) (Some theDB) (opPanics (Some "boom"))
         (initial 0%nat)) = Returns None
  /\ fst (ExecuteOpsInTransaction (scripted allGood) (Some theDB) opOk (initial 0%nat))
     = fst (ExecuteOpsInTransaction (scripted allGood) (Some theDB)
              (opPanics (Some "boom")) (initial 0%nat)).
Proof.
  apply (panic_returns_nil_as_commit_does (scripted allGood) theDB
           (opPanics (Some "boom")) opOk (initial 0%nat) theTx 0%nat (Some "boom")
           (began theDB 0%nat (initial 0%nat)) (began theDB 0%nat (initial 0%nat)));
    reflexivity.
Defined.

Lemma single_row_write_guard_witness :
  ExecuteSingleRowWriteInTransaction (scripted noRowTouched) (Some theDB)
    EmptyOps "UPDATE test SET name = ? WHERE id = ?" NilArgs (initial 0%nat)
  = (Returns (Some ErrNoRowsUpdated),
     mkState 1%nat
       [EvBegin theDB; EvExec theTx "UPDATE test SET name = ? WHERE id = ?" [];
        EvRollback theTx] None false)
  /\ ExecuteSingleRowWriteInTransaction (scripted allGood) (Some theDB)
       EmptyOps "UPDATE test SET name = ? WHERE id = ?" NilArgs (initial 0%nat)
     = (Returns None,
        mkState 1%nat
          [EvBegin theDB; EvExec theTx "UPDATE test SET name = ? WHERE id = ?" [];
           EvCommit theTx] None false).
Proof.
  split.
  - refine (proj2 (proj1 (single_row_write_guard (scripted noRowTouched) theDB
              EmptyOps "UPDATE test SET name = ? WHERE id = ?" NilArgs
              (initial 0%nat) (began theDB 0%nat (initial 0%nat))
              (began theDB 0%nat (initial 0%nat)) theTx 0%nat 1%nat []
              (mkSqlResult 0 None) eq_refl eq_refl eq_refl eq_refl eq_refl) _)).
    left. reflexivity.
  - refine (proj2 (proj2 (single_row_write_guard (scripted allGood) theDB
              EmptyOps "UPDATE test SET name = ? WHERE id = ?" NilArgs
              (initial 0%nat) (began theDB 0%nat (initial 0%nat))
              (began theDB 0%nat (initial 0%nat)) theTx 0%nat 1%nat []
              (mkSqlResult 1 None) eq_refl eq_refl eq_refl eq_refl eq_refl) _)).
    reflexivity.
Defined.

Lemma multiple_writes_all_or_nothing_witness :
  ExecuteMultipleWriteOpsInTransaction (scripted allGood) (Some theDB)
    [None; Some opOk] (initial 0%nat)
  = (Returns None,
     mkState 0%nat [EvBegin theDB; EvLogWarn "Tx Op is nil! Ignoring it"; EvCommit theTx]
       None false)
  /\ ExecuteMultipleWriteOpsInTransaction (scripted allGood) (Some theDB)
       ([None; Some opOk] ++ Some opFails :: [Some (opPanics (Some "not called")); None])
       (initial 0%nat)
     = (Returns (Some (DriverError "op")),
        mkState 0%nat
          [EvBegin theDB; EvLogWarn "Tx Op is nil! Ignoring it"; EvRollback theTx]
          None false).
Proof.
  pose (warned := emit (EvLogWarn "Tx Op is nil! Ignoring it")
                       (began theDB 0%nat (initial 0%nat))).
  assert (Hok : OpsSucceed (Some theTx) [None; Some opOk]
                  (began theDB 0%nat (initial 0%nat)) warned).
  { apply OpsSucceed_skip. apply (OpsSucceed_run _ opOk [] warned warned warned).
    - reflexivity.
    - apply OpsSucceed_nil. }
  destruct (multiple_writes_all_or_nothing (scripted allGood) theDB (initial 0%nat)
              theTx 0%nat eq_refl) as [Hall Hfirst].
  split.
  - exact (Hall [None; Some opOk] warned Hok).
  - exact (proj1 (Hfirst [None; Some opOk] opFails
                    [Some (opPanics (Some "not called")); None]
                    warned (DriverError "op") warned Hok eq_refl)).
Defined.

Lemma pool_initialised_at_most_once_witness :
  fst (callPool (scripted openBroken)
         [(sqliteConfig, migrationOn); (sqliteConfig, migrationOn); (sqliteConfig, None)]
         (initial 0%nat))
  = [Returns (None, Some (DriverError "open"));
     Returns (None, Some errDBConnectionNeverInitialized);
     Returns (None, Some errDBConnectionNeverInitialized)]
  /\ Forall (fun r => r = Returns (None, Some errDBConnectionNeverInitialized))
       (fst (callPool (scripted openBroken)
               [(sqliteConfig, migrationOn); (sqliteConfig, None)]
               (mkState 0%nat [EvOpen SQLite3Dialect "database.sqlite3?_foreign_keys=on"]
                  None true))).
Proof.
  split; [reflexivity|].
  apply (proj2 (pool_initialised_at_most_once (scripted openBroken)
                  [(sqliteConfig, migrationOn); (sqliteConfig, migrationOn);
                   (sqliteConfig, None)] 0%nat)
           sqliteConfig migrationOn
           [(sqliteConfig, migrationOn); (sqliteConfig, None)]
           (Returns (None, Some (DriverError "open")))); reflexivity.
Defined.

(* ================================================================== *)
(** ** Further properties of the pagination functions *)

Lemma placeholders_descendingClause (pageSize : PageSizeEnum) :
  placeholders (descendingClause pageSize) = 0%nat.
Proof.
  unfold descendingClause.
  destruct (pageSize =? ExtraLargePageSize), (pageSize =? LargePageSize),
    (pageSize =? MediumPageSize), (pageSize =? RegularPageSize); reflexivity.
Qed.

Lemma placeholders_ascendingClause (pageSize : PageSizeEnum) :
  placeholders (ascendingClause pageSize) = 0%nat.
Proof.
  unfold ascendingClause.
  destruct (pageSize =? ExtraLargePageSize), (pageSize =? LargePageSize),
    (pageSize =? MediumPageSize), (pageSize =? RegularPageSize); reflexivity.
Qed.

Lemma clauses_of_unknown_size (pageSize : PageSizeEnum) :
  pageSize <> RegularPageSize -> pageSize <> MediumPageSize ->
  pageSize <> LargePageSize -> pageSize <> ExtraLargePageSize ->
  descendingClause pageSize = pageSizeWithOrder
  /\ ascendingClause pageSize = pageSizeWithOrderOpposite
  /\ ExpectedMaxRowCount pageSize = 0.
Proof.
  intros H1 H2 H3 H4.
  apply Z.eqb_neq in H1, H2, H3, H4.
  unfold descendingClause, ascendingClause, ExpectedMaxRowCount.
  rewrite H1, H2, H3, H4. repeat split.
Qed.

Lemma ends_with_app (a b suffix : string) :
  ends_with b suffix -> ends_with (a ++ b) suffix.
Proof.
  intros [pre ->]. exists (a ++ pre). now rewrite append_assoc.
Qed.

(** X1. A page size that is none of the four constants, 0 to 3 among
    them, is served as the regular one: the fragment is that of
    [GetPaginationQueryFragment], limited to 25 rows, while
    [ExpectedMaxRowCount] has no entry for it and reads 0. *)
Theorem unknown_page_size_is_regular (page : Pagination) (append : bool)
    (pageSize : PageSizeEnum) :
  pageSize <> RegularPageSize -> pageSize <> MediumPageSize ->
  pageSize <> LargePageSize -> pageSize <> ExtraLargePageSize ->
  GetPaginationQueryFragmentWithConfigurablePageSize page append pageSize
  = GetPaginationQueryFragment page append
  /\ ends_with (GetPaginationQueryFragmentWithConfigurablePageSize page append pageSize)
               " LIMIT 25"
  /\ ExpectedMaxRowCount pageSize = 0.
Proof.
  intros H1 H2 H3 H4.
  destruct (clauses_of_unknown_size pageSize H1 H2 H3 H4) as [Hd [Ha He]].
  unfold GetPaginationQueryFragment, GetPaginationQueryFragmentWithConfigurablePageSize.
  rewrite Hd, Ha. split; [reflexivity|]. split; [|exact He].
  destruct (Next page) as [n|]; [|destruct (Previous page) as [pv|]];
    apply ends_with_app;
    [ exists baseOrderByClause | exists baseOrderByClauseOpposite
    | exists baseOrderByClause ]; reflexivity.
Qed.

Lemma unknown_page_size_is_regular_witness :
  GetPaginationQueryFragmentWithConfigurablePageSize
    (mkPagination None (Some (mkCursor "c09" 9))) true 0
  = GetPaginationQueryFragment (mkPagination None (Some (mkCursor "c09" 9))) true
  /\ ends_with (GetPaginationQueryFragmentWithConfigurablePageSize
                  (mkPagination None (Some (mkCursor "c09" 9))) true 0) " LIMIT 25"
  /\ ExpectedMaxRowCount 0 = 0.
Proof.
  apply (unknown_page_size_is_regular (mkPagination None (Some (mkCursor "c09" 9))) true 0);
    discriminate.
Defined.

(** X2. A page with no cursor, the first page: the fragment does not
    depend on [append], holds no placeholder, and the query arguments are
    left as the caller gave them. *)
Theorem first_page_has_no_predicate (page : Pagination) (append : bool)
    (pageSize : PageSizeEnum) (args : list Arg) :
  Next page = None ->
  Previous page = None ->
  GetPaginationQueryFragmentWithConfigurablePageSize page append pageSize
  = GetPaginationQueryFragmentWithConfigurablePageSize page (negb append) pageSize
  /\ placeholders
       (GetPaginationQueryFragmentWithConfigurablePageSize page append pageSize) = 0%nat
  /\ AppendWithPaginationArgs page args = args.
Proof.
  intros Hn Hp.
  unfold GetPaginationQueryFragmentWithConfigurablePageSize, AppendWithPaginationArgs,
    GetPaginationTimestampQueryArgs.
  rewrite Hn, Hp. split; [reflexivity|]. split.
  - rewrite placeholders_app, placeholders_descendingClause. reflexivity.
  - simpl. apply app_nil_r.
Qed.

Lemma first_page_has_no_predicate_witness :
  GetPaginationQueryFragmentWithConfigurablePageSize (mkPagination None None) true
    LargePageSize
  = GetPaginationQueryFragmentWithConfigurablePageSize (mkPagination None None) false
      LargePageSize
  /\ placeholders
       (GetPaginationQueryFragmentWithConfigurablePageSize (mkPagination None None) true
          LargePageSize) = 0%nat
  /\ AppendWithPaginationArgs (mkPagination None None) [ArgString "x"] = [ArgString "x"].
Proof.
  apply (first_page_has_no_predicate (mkPagination None None) true LargePageSize
           [ArgString "x"]); reflexivity.
Defined.

Lemma placeholders_of_fragment (page : Pagination) (append : bool)
    (pageSize : PageSizeEnum) :
  placeholders (GetPaginationQueryFragmentWithConfigurablePageSize page append pageSize)
  = match activeCursor page with
    | Some c => S (placeholders (ID c))
    | None => 0%nat
    end.
Proof.
  unfold GetPaginationQueryFragmentWithConfigurablePageSize, activeCursor.
  destruct (Next page) as [n|]; [|destruct (Previous page) as [pv|]];
    destruct append;
    rewrite ?placeholders_app, ?placeholders_descendingClause,
      ?placeholders_ascendingClause; simpl; lia.
Qed.

(** X3. The fragment holds one placeholder for its cursor, plus every
    question mark of that cursor's identifier, which is spliced in as it
    is; with no cursor it holds none.  The page size and [append] do not
    matter. *)
Theorem fragment_placeholders (page : Pagination) (append : bool)
    (pageSize : PageSizeEnum) :
  placeholders (GetPaginationQueryFragmentWithConfigurablePageSize page append pageSize)
  = match activeCursor page with
    | Some c => S (placeholders (ID c))
    | None => 0%nat
    end.
Proof.
  apply placeholders_of_fragment.
Qed.

(** X4. When at most one cursor is set and its identifier holds no
    question mark, the arguments built for the page are as many as the
    placeholders of its fragment, so the whole argument list is the
    caller's followed by one value for each placeholder. *)
Theorem args_match_placeholders (page : Pagination) (append : bool)
    (pageSize : PageSizeEnum) (args : list Arg) :
  (cursorsSet page <= 1)%nat ->
  (forall c, activeCursor page = Some c -> placeholders (ID c) = 0%nat) ->
  List.length (GetPaginationTimestampQueryArgs page)
  = placeholders (GetPaginationQueryFragmentWithConfigurablePageSize page append pageSize)
  /\ List.length (AppendWithPaginationArgs page args)
     = (List.length args
        + placeholders
            (GetPaginationQueryFragmentWithConfigurablePageSize page append pageSize))%nat.
Proof.
  intros Hone Hid.
  assert (E : List.length (GetPaginationTimestampQueryArgs page)
              = placeholders
                  (GetPaginationQueryFragmentWithConfigurablePageSize page append pageSize)).
  { rewrite placeholders_of_fragment.
    unfold GetPaginationTimestampQueryArgs, activeCursor, cursorsSet in *.
    destruct (Next page) as [n|], (Previous page) as [pv|]; simpl in *;
      try lia.
    - rewrite (Hid n eq_refl). reflexivity.
    - rewrite (Hid pv eq_refl). reflexivity. }
  split; [exact E|].
  unfold AppendWithPaginationArgs. rewrite length_app, E. reflexivity.
Qed.

Lemma args_match_placeholders_witness :
  List.length (GetPaginationTimestampQueryArgs (mkPagination (Some (mkCursor "c01" 5%Z)) None))
  = placeholders
      (GetPaginationQueryFragmentWithConfigurablePageSize
         (mkPagination (Some (mkCursor "c01" 5%Z)) None) false MediumPageSize)
  /\ List.length (AppendWithPaginationArgs (mkPagination (Some (mkCursor "c01" 5%Z)) None)
                    [ArgString "x"])
     = (List.length [ArgString "x"]
        + placeholders
            (GetPaginationQueryFragmentWithConfigurablePageSize
               (mkPagination (Some (mkCursor "c01" 5%Z)) None) false MediumPageSize))%nat.
Proof.
  apply (args_match_placeholders (mkPagination (Some (mkCursor "c01" 5%Z)) None) false
           MediumPageSize [ArgString "x"]).
  - unfold cursorsSet. simpl. lia.
  - intros c H. inversion H. reflexivity.
Defined.

(** X5. For each of the four page sizes the row limit written in the
    fragment is the entry of [ExpectedMaxRowCount] for that size. *)
Theorem limit_is_expected_max_row_count (page : Pagination) (append : bool)
    (pageSize : PageSizeEnum) :
  In pageSize [RegularPageSize; MediumPageSize; LargePageSize; ExtraLargePageSize] ->
  ends_with (GetPaginationQueryFragmentWithConfigurablePageSize page append pageSize)
            (" LIMIT " ++ decimal (ExpectedMaxRowCount pageSize)).
Proof.
  intros Hin. unfold GetPaginationQueryFragmentWithConfigurablePageSize.
  simpl in Hin.
  destruct Hin as [E | [E | [E | [E | []]]]]; subst pageSize;
    (destruct (Next page) as [n|]; [|destruct (Previous page) as [pv|]]);
    apply ends_with_app;
    first [ exists baseOrderByClause; reflexivity
          | exists baseOrderByClauseOpposite; reflexivity ].
Qed.

Lemma limit_is_expected_max_row_count_witness :
  ends_with
    (GetPaginationQueryFragmentWithConfigurablePageSize
       (mkPagination None (Some (mkCursor "c09" 9))) false ExtraLargePageSize)
    (" LIMIT " ++ decimal (ExpectedMaxRowCount ExtraLargePageSize)).
Proof.
  apply (limit_is_expected_max_row_count (mkPagination None (Some (mkCursor "c09" 9)))
           false ExtraLargePageSize).
  simpl. right. right. right. left. reflexivity.
Defined.

(** X6. With a cursor set, [append] decides the leading keyword and
    nothing else: the two fragments are [AND] and [WHERE] followed by the
    same text. *)
Theorem append_decides_keyword_only (page : Pagination) (pageSize : PageSizeEnum)
    (c : Cursor) :
  activeCursor page = Some c ->
  exists rest,
    GetPaginationQueryFragmentWithConfigurablePageSize page true pageSize
    = " AND " ++ rest
    /\ GetPaginationQueryFragmentWithConfigurablePageSize page false pageSize
       = " WHERE " ++ rest.
Proof.
  unfold activeCursor, GetPaginationQueryFragmentWithConfigurablePageSize.
  intros Hc.
  destruct (Next page) as [n|]; [|destruct (Previous page) as [pv|]; [|discriminate]].
  - exists ("id < '" ++ ID n ++ "' " ++ "AND createdAt <= ? " ++ descendingClause pageSize).
    rewrite !append_assoc. split; reflexivity.
  - exists ("id > '" ++ ID pv ++ "' " ++ "AND createdAt >= ? " ++ ascendingClause pageSize).
    rewrite !append_assoc. split; reflexivity.
Qed.

Lemma append_decides_keyword_only_witness :
  exists rest,
    GetPaginationQueryFragmentWithConfigurablePageSize
      (mkPagination (Some (mkCursor "c01" 5)) None) true RegularPageSize
    = " AND " ++ rest
    /\ GetPaginationQueryFragmentWithConfigurablePageSize
         (mkPagination (Some (mkCursor "c01" 5)) None) false RegularPageSize
       = " WHERE " ++ rest.
Proof.
  apply (append_decides_keyword_only (mkPagination (Some (mkCursor "c01" 5)) None)
           RegularPageSize (mkCursor "c01" 5)).
  reflexivity.
Defined.

(* ================================================================== *)
(** ** Further properties of the transaction helpers *)

Section MoreTransactionProperties.

Context {W : Type}.
Variable drv : Driver W.

Lemma transactionEnds_app (a b : list Event) :
  transactionEnds (a ++ b) = (transactionEnds a + transactionEnds b)%nat.
Proof.
  unfold transactionEnds. rewrite filter_app, length_app. reflexivity.
Qed.

Lemma rolledBack_ends_once (t : Tx) (s : St W) :
  exists evs,
    trace (rolledBack drv t s) = (trace s ++ evs)%list /\ transactionEnds evs = 1%nat.
Proof.
  unfold rolledBack.
  destruct (sql_Rollback drv t (world s)) as [[e|] w]; simpl.
  - exists [EvRollback t; EvLogError (Some e) "tx rollback error"].
    rewrite <- app_assoc. split; reflexivity.
  - exists [EvRollback t]. split; reflexivity.
Qed.

Lemma committed_ends_once (t : Tx) (s : St W) :
  exists evs,
    trace (committed drv t s) = (trace s ++ evs)%list /\ transactionEnds evs = 1%nat.
Proof.
  unfold committed.
  destruct (sql_Commit drv t (world s)) as [[e|] w]; simpl.
  - exists [EvCommit t; EvLogError (Some e) "tx commit error"].
    rewrite <- app_assoc. split; reflexivity.
  - exists [EvCommit t]. split; reflexivity.
Qed.

(** X7. A transaction that was begun is ended exactly once by the
    executor, by a commit or by a rollback and never by both, whenever
    [txOps] returns or panics with a non-nil value. *)
Theorem begun_transaction_ends_once (d : DB) (txOps : TxOp W) (s : St W)
    (t : Tx) (w1 : W) (o : Outcome (option Error)) (s2 : St W) :
  sql_Begin drv d (world s) = ((Some t, None), w1) ->
  txOps (Some t) (began d w1 s) = (o, s2) ->
  o <> Panics None ->
  exists evs,
    trace (snd (ExecuteOpsInTransaction drv (Some d) txOps s)) = (trace s2 ++ evs)%list
    /\ transactionEnds evs = 1%nat.
Proof.
  intros Hb Hops Ho.
  rewrite (ExecuteOpsInTransaction_begun drv d txOps s t w1 Hb), Hops.
  destruct o as [[e|]|[v|]]; cbn [snd].
  - apply rolledBack_ends_once.
  - apply committed_ends_once.
  - destruct (rolledBack_ends_once t
                (emit (EvLogError None ("recovered from in-tx panic" ++ v)) s2))
      as [evs [Ht He]].
    exists (EvLogError None ("recovered from in-tx panic" ++ v) :: evs).
    rewrite Ht. cbn [emit trace]. rewrite <- app_assoc. split; [reflexivity|].
    exact He.
  - contradiction Ho. reflexivity.
Qed.

(** The statement helper when both closures return and [Exec] gives a
    result. *)
Lemma ExecuteQueryInTransaction_run (t : Tx) (prequeryOps : M (St W) unit)
    (query : string) (arguments : M (St W) (list Arg)) (expected : Z)
    (s sa sb : St W) (args : list Arg) (r : option SqlResult * option Error) (w2 : W) :
  prequeryOps s = (Returns tt, sa) ->
  arguments sa = (Returns args, sb) ->
  sql_Exec drv t query args (world sb) = (r, w2) ->
  ExecuteQueryInTransaction drv (Some t) prequeryOps query arguments expected s
  = (if isNil (snd r)
     then (r' <- result_RowsAffected (fst r) ;;
           if (expected >? 0) && negb (fst r' =? expected) && isNil (snd r')
           then ret (Some ErrNoRowsUpdated) else ret (snd r'))
     else ret (snd r))
      (emit (EvExec t query args) (set_world w2 sb)).
Proof.
  intros Hp Ha He.
  unfold ExecuteQueryInTransaction, bind at 1 2 3, tx_Exec.
  rewrite Hp, Ha, He. reflexivity.
Qed.

(** X8. A statement that runs without a driver error, checked against an
    expected row count: with a positive expectation the helper returns
    [ErrNoRowsUpdated] exactly when the count differs from it, a negative
    count included; with an expectation of zero or less the count is not
    checked. *)
Theorem row_count_guard (t : Tx) (prequeryOps : M (St W) unit)
    (query : string) (arguments : M (St W) (list Arg)) (expected : Z)
    (s sa sb : St W) (args : list Arg) (res : SqlResult) (w2 : W) :
  prequeryOps s = (Returns tt, sa) ->
  arguments sa = (Returns args, sb) ->
  sql_Exec drv t query args (world sb) = ((Some res, None), w2) ->
  rowsAffectedErr res = None ->
  (0 < expected -> rowsAffected res <> expected ->
     fst (ExecuteQueryInTransaction drv (Some t) prequeryOps query arguments expected s)
     = Returns (Some ErrNoRowsUpdated))
  /\ (expected <= 0 \/ rowsAffected res = expected ->
     fst (ExecuteQueryInTransaction drv (Some t) prequeryOps query arguments expected s)
     = Returns None).
Proof.
  intros Hp Ha He Hr.
  rewrite (ExecuteQueryInTransaction_run t prequeryOps query arguments expected
             s sa sb args _ w2 Hp Ha He).
  simpl. unfold bind, ret. simpl. rewrite Hr. split.
  - intros Hpos Hne.
    assert (E1 : (expected >? 0) = true) by (apply Z.gtb_lt; lia).
    assert (E2 : (rowsAffected res =? expected) = false) by (apply Z.eqb_neq; exact Hne).
    rewrite E1, E2. reflexivity.
  - intros [Hle | Heq].
    + assert (E1 : (expected >? 0) = false) by (rewrite Z.gtb_ltb; apply Z.ltb_ge; lia).
      rewrite E1. reflexivity.
    + assert (E2 : (rowsAffected res =? expected) = true) by (apply Z.eqb_eq; exact Heq).
      rewrite E2, andb_false_r. reflexivity.
Qed.

(** X9. An error of the driver is returned as it is and never replaced by
    [ErrNoRowsUpdated]: the error of [Exec], whose result is then not
    read, and the error of [RowsAffected], whatever the count and the
    expectation. *)
Theorem driver_error_wins (t : Tx) (prequeryOps : M (St W) unit)
    (query : string) (arguments : M (St W) (list Arg)) (expected : Z)
    (s sa sb : St W) (args : list Arg) (r : option SqlResult * option Error)
    (w2 : W) (e : Error) :
  prequeryOps s = (Returns tt, sa) ->
  arguments sa = (Returns args, sb) ->
  sql_Exec drv t query args (world sb) = (r, w2) ->
  snd r = Some e \/ (exists res, r = (Some res, None) /\ rowsAffectedErr res = Some e) ->
  ExecuteQueryInTransaction drv (Some t) prequeryOps query arguments expected s
  = (Returns (Some e), emit (EvExec t query args) (set_world w2 sb)).
Proof.
  intros Hp Ha He Herr.
  rewrite (ExecuteQueryInTransaction_run t prequeryOps query arguments expected
             s sa sb args r w2 Hp Ha He).
  destruct Herr as [Hx | [res [-> Hra]]].
  - rewrite Hx. reflexivity.
  - simpl. unfold bind, ret. simpl. rewrite Hra, andb_false_r. reflexivity.
Qed.

(** X10. A single-row write whose [prequeryOps] or [arguments] panics
    with a non-nil value: the statement is never executed, the panic is
    logged, the transaction is rolled back, and the call returns a nil
    error. *)
Theorem single_row_write_closure_panic (d : DB) (prequeryOps : M (St W) unit)
    (query : string) (arguments : M (St W) (list Arg)) (s : St W) (t : Tx) (w1 : W)
    (v : string) (sp : St W) :
  sql_Begin drv d (world s) = ((Some t, None), w1) ->
  prequeryOps (began d w1 s) = (Panics (Some v), sp)
  \/ (exists sa, prequeryOps (began d w1 s) = (Returns tt, sa)
                 /\ arguments sa = (Panics (Some v), sp)) ->
  ExecuteSingleRowWriteInTransaction drv (Some d) prequeryOps query arguments s
  = (Returns None, rolledBack drv t (emit (recoveredLog v) sp)).
Proof.
  intros Hb Hpanic.
  unfold ExecuteSingleRowWriteInTransaction, ExecuteMultipleWriteOpsInTransaction.
  rewrite (ExecuteOpsInTransaction_begun drv d _ s t w1 Hb).
  simpl runOps.
  unfold GetTxWrapperForSingleWriteQuery, ExecuteQueryInTransaction, bind.
  destruct Hpanic as [Hp | [sa [Hp Ha]]].
  - rewrite Hp. reflexivity.
  - rewrite Hp, Ha. reflexivity.
Qed.

Lemma ExecuteOpsInTransaction_ext (db : option DB) (f g : TxOp W) (s : St W) :
  (forall tx s', f tx s' = g tx s') ->
  ExecuteOpsInTransaction drv db f s = ExecuteOpsInTransaction drv db g s.
Proof.
  intros Hfg.
  unfold ExecuteOpsInTransaction, go_func, bind, lift, defer_recover, set_result,
    get_result.
  simpl.
  destruct (db_Begin drv db s) as [[r|v] s1]; simpl; [|reflexivity].
  destruct (isNil (snd r)); simpl; [|reflexivity].
  rewrite Hfg. reflexivity.
Qed.

(** X11. A list holding one operation is run as that operation alone:
    [ExecuteMultipleWriteOpsInTransaction] on it is
    [ExecuteOpsInTransaction] on the operation, for every handle and
    state. *)
Theorem single_operation_list (db : option DB) (op : TxOp W) (s : St W) :
  ExecuteMultipleWriteOpsInTransaction drv db [Some op] s
  = ExecuteOpsInTransaction drv db op s.
Proof.
  unfold ExecuteMultipleWriteOpsInTransaction.
  apply ExecuteOpsInTransaction_ext.
  intros tx s'. simpl. unfold bind, ret.
  destruct (op tx s') as [[err|v] s2]; [destruct err|]; reflexivity.
Qed.

Lemma runOps_all_nil (tx : option Tx) (n : nat) (rest : list (option (TxOp W)))
    (s : St W) :
  runOps tx (repeat None n ++ rest) None s = runOps tx rest None (warnedTimes n s).
Proof.
  revert s. induction n as [|n IH]; intros s; simpl; [reflexivity|].
  unfold bind, log_Warn. rewrite IH. unfold warnedTimes.
  rewrite <- Nat.iter_succ_r. reflexivity.
Qed.

(** X12. A list of nil entries only, the empty list among them, still
    opens a transaction and commits it: one warning is logged for each
    entry and the result is that of the commit. *)
Theorem nil_operations_commit (d : DB) (n : nat) (s : St W) (t : Tx) (w1 : W) :
  sql_Begin drv d (world s) = ((Some t, None), w1) ->
  ExecuteMultipleWriteOpsInTransaction drv (Some d) (repeat None n) s
  = (Returns (fst (sql_Commit drv t (world (warnedTimes n (began d w1 s))))),
     committed drv t (warnedTimes n (began d w1 s))).
Proof.
  intros Hb.
  unfold ExecuteMultipleWriteOpsInTransaction.
  rewrite (ExecuteOpsInTransaction_begun drv d _ s t w1 Hb).
  pose proof (runOps_all_nil (Some t) n [] (began d w1 s)) as Hrun.
  rewrite app_nil_r in Hrun. rewrite Hrun. reflexivity.
Qed.

(** X13. When an operation of the list panics with a non-nil value after
    the ones before it succeeded, the later ones are not called, the
    panic is logged, the transaction is rolled back, and the call returns
    a nil error. *)
Theorem multiple_writes_panic (d : DB) (s : St W) (t : Tx) (w1 : W)
    (pre post : list (option (TxOp W))) (op : TxOp W) (s2 s3 : St W) (v : string) :
  sql_Begin drv d (world s) = ((Some t, None), w1) ->
  OpsSucceed (Some t) pre (began d w1 s) s2 ->
  op (Some t) s2 = (Panics (Some v), s3) ->
  ExecuteMultipleWriteOpsInTransaction drv (Some d) (pre ++ Some op :: post) s
  = (Returns None, rolledBack drv t (emit (recoveredLog v) s3)).
Proof.
  intros Hb Hok Hop.
  unfold ExecuteMultipleWriteOpsInTransaction.
  rewrite (ExecuteOpsInTransaction_begun drv d _ s t w1 Hb).
  rewrite (runOps_after_successes (Some t) pre (Some op :: post) _ s2 Hok).
  simpl. unfold bind. rewrite Hop. reflexivity.
Qed.

(** X14. A nil handle makes each of the three write helpers panic at
    [Begin], before the recovery guard is in place: the panic reaches the
    caller and no operation is called. *)
Theorem nil_handle_panics (txOps : TxOp W) (ops : list (option (TxOp W)))
    (prequeryOps : M (St W) unit) (query : string) (arguments : M (St W) (list Arg))
    (s : St W) :
  ExecuteOpsInTransaction drv None txOps s = (Panics nilDereference, s)
  /\ ExecuteMultipleWriteOpsInTransaction drv None ops s = (Panics nilDereference, s)
  /\ ExecuteSingleRowWriteInTransaction drv None prequeryOps query arguments s
     = (Panics nilDereference, s).
Proof.
  repeat split.
Qed.

End MoreTransactionProperties.

(* ================================================================== *)
(** ** Further properties of the pool initialiser *)

Section MorePoolProperties.

Context {W : Type}.
Variable drv : Driver W.

Lemma returned_pool_is_stored (c : RelationalDatabaseConfig) (m : option MigrationConfig)
    (s s1 : St W) (p : option DB) (e : option Error) :
  GetConfiguredConnectionPool drv c m s = (Returns (p, e), s1) ->
  p = db s1.
Proof.
  unfold GetConfiguredConnectionPool.
  match goal with
  | |- context [match ?b with _ => _ end] => destruct b as [[u|v] [eb sb]]
  end; intros H; inversion H; subst. reflexivity.
Qed.

(** X15. After the first call, however it ended, every later call
    returns the pool variable as the first call left it, with a nil error
    when it is set and [errDBConnectionNeverInitialized] when it is not;
    it makes no call outside the process and its arguments do not
    matter. *)
Theorem later_calls_reuse_pool (c : RelationalDatabaseConfig) (m : option MigrationConfig)
    (s : St W) (o : Outcome (option DB * option Error)) (s1 : St W)
    (rest : list (RelationalDatabaseConfig * option MigrationConfig)) :
  dataAccessorInitializer s = false ->
  GetConfiguredConnectionPool drv c m s = (o, s1) ->
  callPool drv rest s1
  = (map (fun _ => Returns (db s1, if isNil (db s1)
                                   then Some errDBConnectionNeverInitialized
                                   else None)) rest,
     s1).
Proof.
  intros Hd H1.
  destruct (pool_call_first drv c m s o s1 Hd H1) as [Hdone _].
  apply callPool_when_done. exact Hdone.
Qed.

(** X16. When the first call returns a pool together with an error, the
    error of the migration, the pool is kept: every later call returns it
    with a nil error, and the migration is not tried again. *)
Theorem migration_error_is_reported_once (c c' : RelationalDatabaseConfig)
    (m m' : option MigrationConfig) (s s1 : St W) (d : DB) (e : Error) :
  dataAccessorInitializer s = false ->
  GetConfiguredConnectionPool drv c m s = (Returns (Some d, Some e), s1) ->
  GetConfiguredConnectionPool drv c' m' s1 = (Returns (Some d, None), s1).
Proof.
  intros Hd H1.
  destruct (pool_call_first drv c m s _ s1 Hd H1) as [Hdone _].
  rewrite (pool_call_when_done drv c' m' s1 Hdone).
  rewrite <- (returned_pool_is_stored c m s s1 _ _ H1). reflexivity.
Qed.

(** X17. With the migration enabled and its driver and instance created,
    [runMigration] returns nil when [Up] returns nil or
    [migrate.ErrNoChange], and returns the error of [Up] otherwise. *)
Theorem migration_no_change_is_success (d : DB) (c : RelationalDatabaseConfig)
    (conf : MigrationConfig) (s s1 s2 : St W) (md : MigrationDriver) (mg : Migrate)
    (up : option Error) (w3 : W) :
  MigrationEnabled conf = true ->
  getMigrationDriver drv (Some d) c s = (Returns (Some md, None), s1) ->
  getMigration drv (MigrationSource conf) (GetDBDialect c) (Some md) s1
  = (Returns (Some mg, None), s2) ->
  migrate_Up drv mg (world s2) = (up, w3) ->
  (up = None \/ up = Some ErrNoChange ->
     runMigration drv (Some d) c (Some conf) s
     = (Returns None, emit (EvMigrationUp mg) (set_world w3 s2)))
  /\ (forall e, up = Some e -> e <> ErrNoChange ->
     runMigration drv (Some d) c (Some conf) s
     = (Returns (Some e), emit (EvMigrationUp mg) (set_world w3 s2))).
Proof.
  intros Hen Hdrv Hnew Hup.
  assert (Hrun : runMigration drv (Some d) c (Some conf) s
                 = (Returns (if negb (isNil up) && negb (err_is up ErrNoChange)
                             then up else None),
                    emit (EvMigrationUp mg) (set_world w3 s2))).
  { unfold runMigration. rewrite Hen. unfold bind at 1. rewrite Hdrv.
    cbn [fst snd isNil negb]. unfold bind at 1. rewrite Hnew.
    cbn [fst snd isNil negb]. unfold bind, migration_Up. rewrite Hup.
    destruct (negb (isNil up) && negb (err_is up ErrNoChange)); reflexivity. }
  rewrite Hrun. split.
  - intros [-> | ->]; reflexivity.
  - intros e -> Hne. destruct e; try reflexivity. contradiction Hne. reflexivity.
Qed.

(** X18. [runMigration] stops at the first step that fails: with the
    migration disabled it calls nothing and returns nil; when the driver
    cannot be created its error is returned and no migration instance is
    asked for; when the instance cannot be created its error is returned
    and [Up] is not called. *)
Theorem migration_stops_at_first_failure (d : DB) (c : RelationalDatabaseConfig)
    (conf : MigrationConfig) (s : St W) :
  (MigrationEnabled conf = false ->
     runMigration drv (Some d) c (Some conf) s = (Returns None, s))
  /\ (forall md e s1,
        MigrationEnabled conf = true ->
        getMigrationDriver drv (Some d) c s = (Returns (md, Some e), s1) ->
        runMigration drv (Some d) c (Some conf) s = (Returns (Some e), s1))
  /\ (forall md mg e s1 s2,
        MigrationEnabled conf = true ->
        getMigrationDriver drv (Some d) c s = (Returns (md, None), s1) ->
        getMigration drv (MigrationSource conf) (GetDBDialect c) md s1
        = (Returns (mg, Some e), s2) ->
        runMigration drv (Some d) c (Some conf) s = (Returns (Some e), s2)).
Proof.
  unfold runMigration. repeat split.
  - intros ->. reflexivity.
  - intros md e s1 -> Hdrv. unfold bind. rewrite Hdrv. reflexivity.
  - intros md mg e s1 s2 -> Hdrv Hnew. unfold bind at 1. rewrite Hdrv. simpl.
    unfold bind. rewrite Hnew. reflexivity.
Qed.

(** The state once the pool has been opened and configured. *)
Lemma CreateDBConnectionPool_opened (c : RelationalDatabaseConfig) (s : St W)
    (d : DB) (w1 : W) :
  sql_Open drv (GetDBDialect c) (GetDBConnectionURL c) (world s) = ((Some d, None), w1) ->
  exists s1,
    CreateDBConnectionPool drv c s = (Returns (Some d, None), s1)
    /\ db s1 = db s
    /\ dataAccessorInitializer s1 = dataAccessorInitializer s
    /\ migrationRuns (trace s1) = migrationRuns (trace s).
Proof.
  intros Ho.
  unfold CreateDBConnectionPool, bind, getDB. rewrite Ho. simpl.
  eexists. split; [reflexivity|]. simpl.
  repeat split.
  rewrite <- !app_assoc, migrationRuns_app. simpl. lia.
Qed.

(** X19. A nil [migrationConf] on the first call, the pool opening fine:
    the call panics at the migration step, after the pool was stored and
    with the initialiser spent, so every later call returns that pool
    with a nil error and the migrations are never applied. *)
Theorem nil_migration_config_panics_once (c c' : RelationalDatabaseConfig)
    (m' : option MigrationConfig) (s : St W) (d : DB) (w1 : W) :
  dataAccessorInitializer s = false ->
  sql_Open drv (GetDBDialect c) (GetDBConnectionURL c) (world s) = ((Some d, None), w1) ->
  exists s1,
    GetConfiguredConnectionPool drv c None s = (Panics nilDereference, s1)
    /\ db s1 = Some d
    /\ migrationRuns (trace s1) = migrationRuns (trace s)
    /\ GetConfiguredConnectionPool drv c' m' s1 = (Returns (Some d, None), s1).
Proof.
  intros Hd Ho.
  destruct (CreateDBConnectionPool_opened c s d w1 Ho) as [s0 [Hc [_ [Hf Hm]]]].
  unfold GetConfiguredConnectionPool at 1, Once_Do. simpl. rewrite Hd.
  unfold bind, lift. simpl. rewrite Hc. simpl.
  eexists. split; [reflexivity|]. split; [reflexivity|]. split; [exact Hm|].
  rewrite pool_call_when_done; reflexivity.
Qed.

(** X20. When [sql.Open] fails on the first call, the call returns that
    error, not the sentinel, with a nil pool; nothing but [sql.Open] was
    called: no pool setting, no migration. *)
Theorem open_failure_is_returned (c : RelationalDatabaseConfig)
    (m : option MigrationConfig) (s : St W) (e : Error) (w1 : W) :
  dataAccessorInitializer s = false ->
  sql_Open drv (GetDBDialect c) (GetDBConnectionURL c) (world s) = ((None, Some e), w1) ->
  GetConfiguredConnectionPool drv c m s
  = (Returns (None, Some e),
     set_done (set_db None
       (emit (EvOpen (GetDBDialect c) (GetDBConnectionURL c)) (set_world w1 s)))).
Proof.
  intros Hd Ho.
  unfold GetConfiguredConnectionPool, Once_Do. simpl. rewrite Hd.
  unfold bind, lift, CreateDBConnectionPool, bind, getDB. simpl. rewrite Ho.
  reflexivity.
Qed.

End MorePoolProperties.

(* ================================================================== *)
(** ** Properties of the readers *)

Lemma countQ_app (p : QEvent -> bool) (a b : list QEvent) :
  countQ p (a ++ b) = (countQ p a + countQ p b)%nat.
Proof.
  unfold countQ. rewrite filter_app, length_app. reflexivity.
Qed.

Section ReaderProperties.

Context {W : Type}.
Variable qdrv : QueryDriver W.

Lemma scanRows_after_scanned (scanArgs : Closure W (list Dest))
    (pre rest : list RowData) (s s2 : QState W) :
  RowsScanned qdrv scanArgs pre s s2 ->
  scanRows qdrv (pre ++ rest) scanArgs None s = scanRows qdrv rest scanArgs None s2.
Proof.
  induction 1 as [s | row pre s dest w1 w2 s' Hargs Hscan _ IH].
  - reflexivity.
  - simpl. unfold bind, extern, call. simpl. rewrite Hargs. simpl. rewrite Hscan. simpl.
    rewrite <- !app_assoc. simpl. exact IH.
Qed.

Lemma RowsScanned_trace (scanArgs : Closure W (list Dest)) (pre : list RowData)
    (s s2 : QState W) :
  RowsScanned qdrv scanArgs pre s s2 ->
  exists evs,
    qtrace s2 = (qtrace s ++ evs)%list
    /\ countQ isScanArgsCall evs = List.length pre
    /\ countQ isScan evs = List.length pre
    /\ countQ isClose evs = 0%nat.
Proof.
  induction 1 as [s | row pre s dest w1 w2 s' _ _ _ IH].
  - exists []. rewrite app_nil_r. repeat split.
  - destruct IH as [evs [Ht [H1 [H2 H3]]]]. simpl in Ht.
    exists ([QvNext; QvCallScanArgs; QvScan row dest] ++ evs)%list.
    rewrite Ht, <- app_assoc, !countQ_app, H1, H2, H3. repeat split.
Qed.

Lemma QueryRows_queried (d : DB) (query : string) (queryArgs : Closure W (list Arg))
    (scanArgs : Closure W (list Dest)) (s : QState W) (args : list Arg) (w0 w1 : W)
    (rs : Rows) :
  queryArgs (qworld s) = (Returns args, w0) ->
  sql_Query qdrv d query args w0 = ((Some rs, None), w1) ->
  QueryRows qdrv (Some d) query queryArgs scanArgs s
  = match scanRows qdrv (pending rs) scanArgs None (queried d query args w1 s) with
    | (o, s2) => (o, closed qdrv s2)
    end.
Proof.
  intros Ha Hq.
  unfold QueryRows, bind at 1 2, call, db_Query, extern. simpl.
  rewrite Ha. simpl. rewrite Hq. simpl.
  unfold defer_call, queried. rewrite <- app_assoc. simpl.
  destruct (scanRows qdrv (pending rs) scanArgs None _) as [o s2].
  unfold bind, extern, closed, ret.
  destruct (rows_Close qdrv (qworld s2)) as [ce wc]. reflexivity.
Qed.

(** X21. When the query fails, [QueryRows] returns its error: [scanArgs]
    is not called and there is no result set to close. *)
Theorem query_error_is_returned (d : DB) (query : string)
    (queryArgs : Closure W (list Arg)) (scanArgs : Closure W (list Dest))
    (s : QState W) (args : list Arg) (w0 w1 : W) (rows : option Rows) (e : Error) :
  queryArgs (qworld s) = (Returns args, w0) ->
  sql_Query qdrv d query args w0 = ((rows, Some e), w1) ->
  QueryRows qdrv (Some d) query queryArgs scanArgs s
  = (Returns (Some e), queried d query args w1 s).
Proof.
  intros Ha Hq.
  unfold QueryRows, bind, call, db_Query, extern. simpl.
  rewrite Ha. simpl. rewrite Hq. simpl.
  unfold queried. rewrite <- app_assoc. reflexivity.
Qed.

(** X22. When every row scans, [QueryRows] returns nil, an empty result
    set included: [scanArgs] was called once for each row, each row was
    scanned, and the result set was closed once.  What [rows.Err()] holds
    at the end is not looked at. *)
Theorem all_rows_are_scanned (d : DB) (query : string)
    (queryArgs : Closure W (list Arg)) (scanArgs : Closure W (list Dest))
    (s : QState W) (args : list Arg) (w0 w1 : W) (rs : Rows) (s2 : QState W) :
  queryArgs (qworld s) = (Returns args, w0) ->
  sql_Query qdrv d query args w0 = ((Some rs, None), w1) ->
  RowsScanned qdrv scanArgs (pending rs) (queried d query args w1 s) s2 ->
  fst (QueryRows qdrv (Some d) query queryArgs scanArgs s) = Returns None
  /\ exists evs,
       qtrace (snd (QueryRows qdrv (Some d) query queryArgs scanArgs s))
       = (qtrace (queried d query args w1 s) ++ evs)%list
       /\ countQ isScanArgsCall evs = List.length (pending rs)
       /\ countQ isScan evs = List.length (pending rs)
       /\ countQ isClose evs = 1%nat.
Proof.
  intros Ha Hq Hrows.
  rewrite (QueryRows_queried d query queryArgs scanArgs s args w0 w1 rs Ha Hq).
  pose proof (scanRows_after_scanned scanArgs (pending rs) [] _ s2 Hrows) as Hrun.
  rewrite app_nil_r in Hrun. rewrite Hrun. simpl.
  split; [reflexivity|].
  destruct (RowsScanned_trace scanArgs (pending rs) _ s2 Hrows) as [evs [Ht [H1 [H2 H3]]]].
  exists (evs ++ [QvNext; QvClose])%list.
  unfold closed. simpl. rewrite Ht, <- !app_assoc, !countQ_app, H1, H2, H3.
  unfold countQ. simpl.
  split; [rewrite <- ?app_assoc; reflexivity | repeat split; lia].
Qed.

(** X23. The first row whose scan fails ends the reading: its error is
    returned, the rows after it are neither scanned nor asked
    destinations for, and the result set is closed once. *)
Theorem first_scan_error_is_returned (d : DB) (query : string)
    (queryArgs : Closure W (list Arg)) (scanArgs : Closure W (list Dest))
    (s : QState W) (args : list Arg) (w0 w1 : W) (rs : Rows)
    (pre post : list RowData) (row : RowData) (s2 : QState W)
    (dest : list Dest) (wa wb : W) (e : Error) :
  queryArgs (qworld s) = (Returns args, w0) ->
  sql_Query qdrv d query args w0 = ((Some rs, None), w1) ->
  pending rs = (pre ++ row :: post)%list ->
  RowsScanned qdrv scanArgs pre (queried d query args w1 s) s2 ->
  scanArgs (qworld s2) = (Returns dest, wa) ->
  rows_Scan qdrv row dest wa = (Some e, wb) ->
  fst (QueryRows qdrv (Some d) query queryArgs scanArgs s) = Returns (Some e)
  /\ exists evs,
       qtrace (snd (QueryRows qdrv (Some d) query queryArgs scanArgs s))
       = (qtrace (queried d query args w1 s) ++ evs)%list
       /\ countQ isScanArgsCall evs = S (List.length pre)
       /\ countQ isScan evs = S (List.length pre)
       /\ countQ isClose evs = 1%nat.
Proof.
  intros Ha Hq Hp Hrows Hargs Hscan.
  rewrite (QueryRows_queried d query queryArgs scanArgs s args w0 w1 rs Ha Hq), Hp.
  rewrite (scanRows_after_scanned scanArgs pre (row :: post) _ s2 Hrows).
  simpl. unfold bind, extern, call. simpl. rewrite Hargs. simpl. rewrite Hscan. simpl.
  split; [reflexivity|].
  destruct (RowsScanned_trace scanArgs pre _ s2 Hrows) as [evs [Ht [H1 [H2 H3]]]].
  exists (evs ++ [QvNext; QvCallScanArgs; QvScan row dest; QvClose])%list.
  unfold closed. simpl. rewrite Ht, <- !app_assoc, !countQ_app, H1, H2, H3.
  unfold countQ. simpl.
  split; [rewrite <- ?app_assoc; reflexivity | repeat split; lia].
Qed.

(** X24. When [scanArgs] panics at a row, the result set is closed all
    the same and the panic goes on to the caller: nothing recovers it,
    and the row is not scanned. *)
Theorem scan_args_panic_closes_rows (d : DB) (query : string)
    (queryArgs : Closure W (list Arg)) (scanArgs : Closure W (list Dest))
    (s : QState W) (args : list Arg) (w0 w1 : W) (rs : Rows)
    (pre post : list RowData) (row : RowData) (s2 : QState W)
    (v : Iface) (wa : W) :
  queryArgs (qworld s) = (Returns args, w0) ->
  sql_Query qdrv d query args w0 = ((Some rs, None), w1) ->
  pending rs = (pre ++ row :: post)%list ->
  RowsScanned qdrv scanArgs pre (queried d query args w1 s) s2 ->
  scanArgs (qworld s2) = (Panics v, wa) ->
  QueryRows qdrv (Some d) query queryArgs scanArgs s
  = (Panics v,
     closed qdrv (mkQState wa (qtrace s2 ++ [QvNext; QvCallScanArgs]))).
Proof.
  intros Ha Hq Hp Hrows Hargs.
  rewrite (QueryRows_queried d query queryArgs scanArgs s args w0 w1 rs Ha Hq), Hp.
  rewrite (scanRows_after_scanned scanArgs pre (row :: post) _ s2 Hrows).
  simpl. unfold bind, extern, call. simpl. rewrite Hargs. simpl.
  rewrite <- app_assoc. reflexivity.
Qed.

(** [QuerySingleRow] on argument and destination lists wrapped by
    [Args2SliceFnWrapper]: the query is issued with those arguments, the
    row is scanned into those destinations, once, and what the call
    returns is what that scan returns. *)
Lemma single_row_read (d : DB) (query : string) (args : list Arg)
    (dest : list Dest) (s : QState W) :
  QuerySingleRow qdrv (Some d) query (Args2SliceFnWrapper args) (Args2SliceFnWrapper dest) s
  = (let rw := sql_QueryRow qdrv d query args (qworld s) in
     let ew := row_Scan qdrv (fst rw) dest (snd rw) in
     (Returns (fst ew),
      mkQState (snd ew)
        (qtrace s ++ [QvCallQueryArgs; QvQueryRow d query args; QvCallScanArgs;
                      QvRowScan (fst rw) dest]))).
Proof.
  unfold QuerySingleRow, db_QueryRow, bind, call, extern, Args2SliceFnWrapper. simpl.
  destruct (sql_QueryRow qdrv d query args (qworld s)) as [row w1]. simpl.
  destruct (row_Scan qdrv row dest w1) as [e w2]. simpl.
  rewrite <- ?app_assoc. reflexivity.
Qed.

End ReaderProperties.

(* ================================================================== *)
(** ** Properties of the request parser *)

Section RequestProperties.

Variable ParseCursor : string -> option Cursor * option Error.

Lemma length_positive (x : string) :
  (0 <? String.length x)%nat = negb (String.eqb x "").
Proof.
  destruct x; reflexivity.
Qed.

Lemma GetPagination_fields (query : Values) :
  GetPagination ParseCursor query
  = mkPagination (cursorOf ParseCursor (Values_Get query PreviousPaginationQueryParamKey))
                 (cursorOf ParseCursor (Values_Get query NextPaginationQueryParamKey)).
Proof.
  unfold GetPagination, cursorOf.
  destruct (0 <? String.length (Values_Get query PreviousPaginationQueryParamKey))%nat,
    (0 <? String.length (Values_Get query NextPaginationQueryParamKey))%nat;
    try destruct (isNil (snd (ParseCursor (Values_Get query PreviousPaginationQueryParamKey))));
    try destruct (isNil (snd (ParseCursor (Values_Get query NextPaginationQueryParamKey))));
    reflexivity.
Qed.

Lemma cursorOf_unusable (token : string) :
  unusable ParseCursor token -> cursorOf ParseCursor token = None.
Proof.
  unfold unusable, cursorOf. intros [-> | Hbad]; [reflexivity|].
  destruct (0 <? String.length token)%nat; [|reflexivity].
  destruct (snd (ParseCursor token)); [reflexivity | contradiction Hbad; reflexivity].
Qed.

Lemma Values_Get_without_same (key : string) (query : Values) :
  Values_Get (without key query) key = "".
Proof.
  unfold Values_Get, without. rewrite String.eqb_refl. reflexivity.
Qed.

Lemma Values_Get_without_other (key k : string) (query : Values) :
  k <> key -> Values_Get (without key query) k = Values_Get query k.
Proof.
  intros Hne. unfold Values_Get, without.
  apply String.eqb_neq in Hne. rewrite Hne. reflexivity.
Qed.

(** X25. A token that is empty or that the parser refuses is dropped
    without an error: the request is read as if the parameter were not
    there, and the cursor of the other parameter is not affected. *)
Theorem unusable_token_is_ignored (query : Values) :
  (unusable ParseCursor (Values_Get query NextPaginationQueryParamKey) ->
     GetPagination ParseCursor query
     = GetPagination ParseCursor (without NextPaginationQueryParamKey query))
  /\ (unusable ParseCursor (Values_Get query PreviousPaginationQueryParamKey) ->
     GetPagination ParseCursor query
     = GetPagination ParseCursor (without PreviousPaginationQueryParamKey query)).
Proof.
  split; intros Hbad; rewrite !GetPagination_fields;
    rewrite (cursorOf_unusable _ Hbad), Values_Get_without_same;
    rewrite Values_Get_without_other by discriminate; reflexivity.
Qed.

(** X26. A request carrying a previous and a next token that both parse
    gives a page with both cursors.  For that page the argument builder
    returns two values while the fragment holds one placeholder, and the
    question marks of the next identifier. *)
Theorem request_with_both_cursors (query : Values) (cp cn : Cursor)
    (append : bool) (pageSize : PageSizeEnum) :
  Values_Get query PreviousPaginationQueryParamKey <> "" ->
  Values_Get query NextPaginationQueryParamKey <> "" ->
  ParseCursor (Values_Get query PreviousPaginationQueryParamKey) = (Some cp, None) ->
  ParseCursor (Values_Get query NextPaginationQueryParamKey) = (Some cn, None) ->
  GetPagination ParseCursor query = mkPagination (Some cp) (Some cn)
  /\ List.length (GetPaginationTimestampQueryArgs (GetPagination ParseCursor query)) = 2%nat
  /\ placeholders
       (GetPaginationQueryFragmentWithConfigurablePageSize
          (GetPagination ParseCursor query) append pageSize)
     = S (placeholders (ID cn)).
Proof.
  intros Hp Hn Pp Pn.
  assert (E : GetPagination ParseCursor query = mkPagination (Some cp) (Some cn)).
  { rewrite GetPagination_fields. unfold cursorOf.
    rewrite !length_positive, Pp, Pn.
    apply String.eqb_neq in Hp, Hn. rewrite Hp, Hn. reflexivity. }
  rewrite E. split; [reflexivity|]. split; [reflexivity|].
  rewrite placeholders_of_fragment. reflexivity.
Qed.

End RequestProperties.

(* ================================================================== *)
(** ** The further properties at work *)

Lemma begun_transaction_ends_once_witness :
  exists evs,
    trace (snd (ExecuteOpsInTransaction (scripted allGood) (Some theDB) opFails
                  (initial 0%nat)))
    = (trace (began theDB 0%nat (initial 0%nat)) ++ evs)%list
    /\ transactionEnds evs = 1%nat.
Proof.
  apply (begun_transaction_ends_once (scripted allGood) theDB opFails (initial 0%nat)
           theTx 0%nat (Returns (Some (DriverError "op")))
           (began theDB 0%nat (initial 0%nat))).
  - reflexivity.
  - reflexivity.
  - discriminate.
Defined.

Lemma row_count_guard_witness :
  fst (ExecuteQueryInTransaction (scripted allGood) (Some theTx) EmptyOps
         "DELETE FROM test WHERE note = ?" NilArgs 3 (initial 0%nat))
  = Returns (Some ErrNoRowsUpdated)
  /\ fst (ExecuteQueryInTransaction (scripted allGood) (Some theTx) EmptyOps
            "DELETE FROM test WHERE note = ?" NilArgs 0 (initial 0%nat))
     = Returns None.
Proof.
  split.
  - apply (proj1 (row_count_guard (scripted allGood) theTx EmptyOps
                    "DELETE FROM test WHERE note = ?" NilArgs 3 (initial 0%nat)
                    (initial 0%nat) (initial 0%nat) [] (mkSqlResult 1 None) 1%nat
                    eq_refl eq_refl eq_refl eq_refl)); [lia | discriminate].
  - apply (proj2 (row_count_guard (scripted allGood) theTx EmptyOps
                    "DELETE FROM test WHERE note = ?" NilArgs 0 (initial 0%nat)
                    (initial 0%nat) (initial 0%nat) [] (mkSqlResult 1 None) 1%nat
                    eq_refl eq_refl eq_refl eq_refl)).
    left. lia.
Defined.

Lemma driver_error_wins_witness :
  ExecuteQueryInTransaction
    (scriptedExec (Some (mkSqlResult 0 (Some (DriverError "rows"))), None))
    (Some theTx) EmptyOps "UPDATE test SET name = ?" NilArgs 1 (initial 0%nat)
  = (Returns (Some (DriverError "rows")),
     emit (EvExec theTx "UPDATE test SET name = ?" []) (set_world 1%nat (initial 0%nat))).
Proof.
  apply (driver_error_wins
           (scriptedExec (Some (mkSqlResult 0 (Some (DriverError "rows"))), None))
           theTx EmptyOps "UPDATE test SET name = ?" NilArgs 1 (initial 0%nat)
           (initial 0%nat) (initial 0%nat) []
           (Some (mkSqlResult 0 (Some (DriverError "rows"))), None) 1%nat
           (DriverError "rows")).
  - reflexivity.
  - reflexivity.
  - reflexivity.
  - right. exists (mkSqlResult 0 (Some (DriverError "rows"))). split; reflexivity.
Defined.

Lemma single_row_write_closure_panic_witness :
  ExecuteSingleRowWriteInTransaction (scripted allGood) (Some theDB)
    (closurePanics (Some "stamp")) "UPDATE test SET name = ?" NilArgs (initial 0%nat)
  = (Returns None,
     mkState 0%nat
       [EvBegin theDB; EvLogError None "recovered from in-tx panicstamp";
        EvRollback theTx] None false).
Proof.
  apply (single_row_write_closure_panic (scripted allGood) theDB
           (closurePanics (Some "stamp")) "UPDATE test SET name = ?" NilArgs
           (initial 0%nat) theTx 0%nat "stamp" (began theDB 0%nat (initial 0%nat))).
  - reflexivity.
  - left. reflexivity.
Defined.

Lemma nil_operations_commit_witness :
  ExecuteMultipleWriteOpsInTransaction (scripted allGood) (Some theDB) (repeat None 2)
    (initial 0%nat)
  = (Returns None,
     mkState 0%nat
       [EvBegin theDB; EvLogWarn "Tx Op is nil! Ignoring it";
        EvLogWarn "Tx Op is nil! Ignoring it"; EvCommit theTx] None false).
Proof.
  apply (nil_operations_commit (scripted allGood) theDB 2 (initial 0%nat) theTx 0%nat).
  reflexivity.
Defined.

Lemma multiple_writes_panic_witness :
  ExecuteMultipleWriteOpsInTransaction (scripted allGood) (Some theDB)
    ([Some opOk] ++ Some (opPanics (Some "boom")) :: [Some opFails]) (initial 0%nat)
  = (Returns None,
     mkState 0%nat
       [EvBegin theDB; EvLogError None "recovered from in-tx panicboom";
        EvRollback theTx] None false).
Proof.
  apply (multiple_writes_panic (scripted allGood) theDB (initial 0%nat) theTx 0%nat
           [Some opOk] [Some opFails] (opPanics (Some "boom"))
           (began theDB 0%nat (initial 0%nat)) (began theDB 0%nat (initial 0%nat)) "boom").
  - reflexivity.
  - apply (OpsSucceed_run _ opOk [] _ (began theDB 0%nat (initial 0%nat))).
    + reflexivity.
    + apply OpsSucceed_nil.
  - reflexivity.
Defined.

Lemma later_calls_reuse_pool_witness :
  callPool (scripted allGood) [(sqliteConfig, None); (sqliteConfig, migrationOn)]
    (snd (GetConfiguredConnectionPool (scripted allGood) sqliteConfig migrationOn
            (initial 0%nat)))
  = ([Returns (Some theDB, None); Returns (Some theDB, None)],
     snd (GetConfiguredConnectionPool (scripted allGood) sqliteConfig migrationOn
            (initial 0%nat))).
Proof.
  apply (later_calls_reuse_pool (scripted allGood) sqliteConfig migrationOn
           (initial 0%nat)
           (fst (GetConfiguredConnectionPool (scripted allGood) sqliteConfig migrationOn
                   (initial 0%nat)))
           (snd (GetConfiguredConnectionPool (scripted allGood) sqliteConfig migrationOn
                   (initial 0%nat)))
           [(sqliteConfig, None); (sqliteConfig, migrationOn)]); reflexivity.
Defined.

Lemma migration_error_is_reported_once_witness :
  GetConfiguredConnectionPool
    (scriptedMigration None None (Some (DriverError "dirty"))) sqliteConfig migrationOn
    (snd (GetConfiguredConnectionPool
            (scriptedMigration None None (Some (DriverError "dirty")))
            sqliteConfig migrationOn (initial 0%nat)))
  = (Returns (Some theDB, None),
     snd (GetConfiguredConnectionPool
            (scriptedMigration None None (Some (DriverError "dirty")))
            sqliteConfig migrationOn (initial 0%nat))).
Proof.
  apply (migration_error_is_reported_once
           (scriptedMigration None None (Some (DriverError "dirty")))
           sqliteConfig sqliteConfig migrationOn migrationOn (initial 0%nat) _ theDB
           (DriverError "dirty")); reflexivity.
Defined.

Lemma migration_no_change_is_success_witness :
  fst (runMigration (scriptedMigration None None (Some ErrNoChange)) (Some theDB)
         sqliteConfig (Some migrationConf) (initial 0%nat)) = Returns None
  /\ fst (runMigration (scriptedMigration None None (Some (DriverError "dirty")))
            (Some theDB) sqliteConfig (Some migrationConf) (initial 0%nat))
     = Returns (Some (DriverError "dirty")).
Proof.
  split.
  - rewrite (proj1 (migration_no_change_is_success
                      (scriptedMigration None None (Some ErrNoChange)) theDB
                      sqliteConfig migrationConf (initial 0%nat) _ _ 3%nat 4%nat
                      (Some ErrNoChange) 0%nat eq_refl eq_refl eq_refl eq_refl)
               (or_intror eq_refl)).
    reflexivity.
  - rewrite (proj2 (migration_no_change_is_success
                      (scriptedMigration None None (Some (DriverError "dirty"))) theDB
                      sqliteConfig migrationConf (initial 0%nat) _ _ 3%nat 4%nat
                      (Some (DriverError "dirty")) 0%nat eq_refl eq_refl eq_refl eq_refl)
               (DriverError "dirty") eq_refl).
    + reflexivity.
    + discriminate.
Defined.

Lemma migration_stops_at_first_failure_witness :
  runMigration (scripted allGood) (Some theDB) sqliteConfig
    (Some (mkMigrationConfig false "file://test-migration")) (initial 0%nat)
  = (Returns None, initial 0%nat)
  /\ runMigration (scriptedMigration (Some (DriverError "ping")) None None) (Some theDB)
       sqliteConfig (Some migrationConf) (initial 0%nat)
     = (Returns (Some (DriverError "ping")),
        mkState 0%nat [EvMigrationDriver SQLite3Dialect theDB] None false)
  /\ runMigration (scriptedMigration None (Some (DriverError "source")) None) (Some theDB)
       sqliteConfig (Some migrationConf) (initial 0%nat)
     = (Returns (Some (DriverError "source")),
        mkState 0%nat
          [EvMigrationDriver SQLite3Dialect theDB;
           EvMigrationNew "file://test-migration" SQLite3Dialect (Some 3%nat)]
          None false).
Proof.
  split; [|split].
  - apply (proj1 (migration_stops_at_first_failure (scripted allGood) theDB sqliteConfig
                    (mkMigrationConfig false "file://test-migration") (initial 0%nat))).
    reflexivity.
  - apply (proj1 (proj2 (migration_stops_at_first_failure
                           (scriptedMigration (Some (DriverError "ping")) None None)
                           theDB sqliteConfig migrationConf (initial 0%nat)))
             None); reflexivity.
  - apply (proj2 (proj2 (migration_stops_at_first_failure
                           (scriptedMigration None (Some (DriverError "source")) None)
                           theDB sqliteConfig migrationConf (initial 0%nat)))
             (Some 3%nat) None (DriverError "source")
             (mkState 0%nat [EvMigrationDriver SQLite3Dialect theDB] None false));
      reflexivity.
Defined.

Lemma nil_migration_config_panics_once_witness :
  exists s1,
    GetConfiguredConnectionPool (scripted allGood) sqliteConfig None (initial 0%nat)
    = (Panics nilDereference, s1)
    /\ db s1 = Some theDB
    /\ migrationRuns (trace s1) = migrationRuns (trace (initial 0%nat))
    /\ GetConfiguredConnectionPool (scripted allGood) sqliteConfig migrationOn s1
       = (Returns (Some theDB, None), s1).
Proof.
  apply (nil_migration_config_panics_once (scripted allGood) sqliteConfig sqliteConfig
           migrationOn (initial 0%nat) theDB 0%nat); reflexivity.
Defined.

Lemma open_failure_is_returned_witness :
  GetConfiguredConnectionPool (scripted openBroken) sqliteConfig migrationOn
    (initial 0%nat)
  = (Returns (None, Some (DriverError "open")),
     mkState 0%nat [EvOpen SQLite3Dialect "database.sqlite3?_foreign_keys=on"] None true).
Proof.
  apply (open_failure_is_returned (scripted openBroken) sqliteConfig migrationOn
           (initial 0%nat) (DriverError "open") 0%nat); reflexivity.
Defined.

Lemma query_error_is_returned_witness :
  QueryRows (scriptedReader threeRows (Some (DriverError "syntax")) isRowB) (Some theDB)
    "SELECT id FROM test" NoArgs countingScanArgs (mkQState 0%nat [])
  = (Returns (Some (DriverError "syntax")),
     mkQState 0%nat [QvCallQueryArgs; QvQuery theDB "SELECT id FROM test" []]).
Proof.
  apply (query_error_is_returned
           (scriptedReader threeRows (Some (DriverError "syntax")) isRowB) theDB
           "SELECT id FROM test" NoArgs countingScanArgs (mkQState 0%nat []) [] 0%nat
           0%nat None (DriverError "syntax")); reflexivity.
Defined.

Lemma all_rows_are_scanned_witness :
  fst (QueryRows (scriptedReader threeRows None (fun _ => false)) (Some theDB)
         "SELECT id FROM test" NoArgs countingScanArgs (mkQState 0%nat []))
  = Returns None
  /\ exists evs,
       qtrace (snd (QueryRows (scriptedReader threeRows None (fun _ => false))
                      (Some theDB) "SELECT id FROM test" NoArgs countingScanArgs
                      (mkQState 0%nat [])))
       = (qtrace (queried theDB "SELECT id FROM test" [] 0%nat (mkQState 0%nat []))
          ++ evs)%list
       /\ countQ isScanArgsCall evs = 3%nat
       /\ countQ isScan evs = 3%nat
       /\ countQ isClose evs = 1%nat.
Proof.
  eapply (all_rows_are_scanned (scriptedReader threeRows None (fun _ => false)) theDB
            "SELECT id FROM test" NoArgs countingScanArgs (mkQState 0%nat []) [] 0%nat
            0%nat (mkRows threeRows (Some (DriverError "connection lost")))).
  - reflexivity.
  - reflexivity.
  - eapply RowsScanned_row; [reflexivity | reflexivity |].
    eapply RowsScanned_row; [reflexivity | reflexivity |].
    eapply RowsScanned_row; [reflexivity | reflexivity |].
    apply RowsScanned_nil.
Defined.

Lemma first_scan_error_is_returned_witness :
  fst (QueryRows (scriptedReader threeRows None isRowB) (Some theDB)
         "SELECT id FROM test" NoArgs countingScanArgs (mkQState 0%nat []))
  = Returns (Some (DriverError "scan"))
  /\ exists evs,
       qtrace (snd (QueryRows (scriptedReader threeRows None isRowB) (Some theDB)
                      "SELECT id FROM test" NoArgs countingScanArgs (mkQState 0%nat [])))
       = (qtrace (queried theDB "SELECT id FROM test" [] 0%nat (mkQState 0%nat []))
          ++ evs)%list
       /\ countQ isScanArgsCall evs = 2%nat
       /\ countQ isScan evs = 2%nat
       /\ countQ isClose evs = 1%nat.
Proof.
  eapply (first_scan_error_is_returned (scriptedReader threeRows None isRowB) theDB
            "SELECT id FROM test" NoArgs countingScanArgs (mkQState 0%nat []) [] 0%nat
            0%nat (mkRows threeRows (Some (DriverError "connection lost")))
            [[ArgString "a"]] [[ArgString "c"]] [ArgString "b"]).
  - reflexivity.
  - reflexivity.
  - reflexivity.
  - eapply RowsScanned_row; [reflexivity | reflexivity |]. apply RowsScanned_nil.
  - reflexivity.
  - reflexivity.
Defined.

Lemma scan_args_panic_closes_rows_witness :
  QueryRows (scriptedReader threeRows None (fun _ => false)) (Some theDB)
    "SELECT id FROM test" NoArgs panickingScanArgs (mkQState 0%nat [])
  = (Panics (Some "scanArgs"),
     mkQState 0%nat
       [QvCallQueryArgs; QvQuery theDB "SELECT id FROM test" []; QvNext;
        QvCallScanArgs; QvClose]).
Proof.
  apply (scan_args_panic_closes_rows (scriptedReader threeRows None (fun _ => false))
           theDB "SELECT id FROM test" NoArgs panickingScanArgs (mkQState 0%nat []) []
           0%nat 0%nat (mkRows threeRows (Some (DriverError "connection lost")))
           [] [[ArgString "b"]; [ArgString "c"]] [ArgString "a"]
           (queried theDB "SELECT id FROM test" [] 0%nat (mkQState 0%nat []))
           (Some "scanArgs") 0%nat).
  - reflexivity.
  - reflexivity.
  - reflexivity.
  - apply RowsScanned_nil.
  - reflexivity.
Defined.

Lemma unusable_token_is_ignored_witness :
  GetPagination twoTokens (queryOf ["t01"] ["garbage"])
  = GetPagination twoTokens (without NextPaginationQueryParamKey (queryOf ["t01"] ["garbage"]))
  /\ GetPagination twoTokens (queryOf [] ["t09"])
     = GetPagination twoTokens
         (without PreviousPaginationQueryParamKey (queryOf [] ["t09"])).
Proof.
  split.
  - apply (proj1 (unusable_token_is_ignored twoTokens (queryOf ["t01"] ["garbage"]))).
    right. discriminate.
  - apply (proj2 (unusable_token_is_ignored twoTokens (queryOf [] ["t09"]))).
    left. reflexivity.
Defined.

Lemma request_with_both_cursors_witness :
  GetPagination twoTokens (queryOf ["t01"] ["t09"])
  = mkPagination (Some (mkCursor "c01" 100)) (Some (mkCursor "c09" 900))
  /\ List.length (GetPaginationTimestampQueryArgs
                    (GetPagination twoTokens (queryOf ["t01"] ["t09"]))) = 2%nat
  /\ placeholders
       (GetPaginationQueryFragmentWithConfigurablePageSize
          (GetPagination twoTokens (queryOf ["t01"] ["t09"])) false RegularPageSize)
     = S (placeholders "c09").
Proof.
  apply (request_with_both_cursors twoTokens (queryOf ["t01"] ["t09"])
           (mkCursor "c01" 100) (mkCursor "c09" 900) false RegularPageSize).
  - discriminate.
  - discriminate.
  - reflexivity.
  - reflexivity.
Defined.

Section SingleWriteFailure.

Context {W : Type}.
Variable drv : Driver W.

(** X27. A single-row write whose statement fails in the driver, at
    [Exec] or at [RowsAffected]: the transaction is rolled back, not
    committed, and the call returns the error of the driver. *)
Theorem single_row_write_driver_error (d : DB) (prequeryOps : M (St W) unit)
    (query : string) (arguments : M (St W) (list Arg)) (s sa sb : St W) (t : Tx)
    (w1 w2 : W) (args : list Arg) (r : option SqlResult * option Error) (e : Error) :
  sql_Begin drv d (world s) = ((Some t, None), w1) ->
  prequeryOps (began d w1 s) = (Returns tt, sa) ->
  arguments sa = (Returns args, sb) ->
  sql_Exec drv t query args (world sb) = (r, w2) ->
  snd r = Some e \/ (exists res, r = (Some res, None) /\ rowsAffectedErr res = Some e) ->
  ExecuteSingleRowWriteInTransaction drv (Some d) prequeryOps query arguments s
  = (Returns (Some e),
     rolledBack drv t (emit (EvExec t query args) (set_world w2 sb))).
Proof.
  intros Hb Hp Ha He Herr.
  unfold ExecuteSingleRowWriteInTransaction, ExecuteMultipleWriteOpsInTransaction.
  rewrite (ExecuteOpsInTransaction_begun drv d _ s t w1 Hb).
  simpl runOps. unfold bind at 1. unfold GetTxWrapperForSingleWriteQuery.
  rewrite (ExecuteQueryInTransaction_run drv t prequeryOps query arguments 1
             _ sa sb args r w2 Hp Ha He).
  destruct Herr as [Hx | [res [-> Hra]]].
  - rewrite Hx. reflexivity.
  - simpl. unfold bind, ret. simpl. rewrite Hra, andb_false_r. reflexivity.
Qed.

End SingleWriteFailure.

Lemma single_row_write_driver_error_witness :
  ExecuteSingleRowWriteInTransaction
    (scriptedExec (None, Some (DriverError "UNIQUE constraint failed")))
    (Some theDB) EmptyOps "INSERT INTO test (id) VALUES (?)" NilArgs (initial 0%nat)
  = (Returns (Some (DriverError "UNIQUE constraint failed")),
     mkState 1%nat
       [EvBegin theDB; EvExec theTx "INSERT INTO test (id) VALUES (?)" [];
        EvRollback theTx] None false).
Proof.
  apply (single_row_write_driver_error
           (scriptedExec (None, Some (DriverError "UNIQUE constraint failed")))
           theDB EmptyOps "INSERT INTO test (id) VALUES (?)" NilArgs (initial 0%nat)
           (began theDB 0%nat (initial 0%nat)) (began theDB 0%nat (initial 0%nat))
           theTx 0%nat 1%nat [] (None, Some (DriverError "UNIQUE constraint failed"))
           (DriverError "UNIQUE constraint failed")).
  - reflexivity.
  - reflexivity.
  - reflexivity.
  - reflexivity.
  - left. reflexivity.
Defined.

End Storage.
